(** * Training notebooks: regularised MLPs and a small ConvNet

    A shallow embedding of the notebooks' own code: the layer stacks, the
    hand-rolled penalty terms and the training loops.  Tensor arithmetic is
    exact (rationals) in the training loops; the penalty functions are also
    given in single precision, with the rounding of every operation, to show
    which of their properties rounding keeps and which it breaks.
    The tensor library itself (forward evaluation of a layer stack, the
    cross-entropy, automatic differentiation, the optimiser update, the data
    loader and the random generator) is an interface, [Torch]. *)

From Stdlib Require Import String.
From Stdlib Require Import List ZArith QArith Qabs Lia Lqa PeanoNat Permutation Bool.
From Stdlib Require Import Floats.SpecFloat.
Import ListNotations.

Set Implicit Arguments.
Close Scope Q_scope.

(** ** Tensors *)

(** A tensor is its shape together with its elements in contiguous
    (row-major) order. *)
Record Tensor : Type := mkTensor { shape : list nat; elems : list Q }.

Module torch.

(** [torch.abs]: element-wise absolute value. *)
Definition abs (t : Tensor) : Tensor :=
  {| shape := shape t; elems := map Qabs (elems t) |}.

(** [torch.square]: element-wise square. *)
Definition square (t : Tensor) : Tensor :=
  {| shape := shape t; elems := map (fun x => x * x)%Q (elems t) |}.

(** [Tensor.sum()]: reduction of all elements, starting from zero. *)
Definition sum (t : Tensor) : Q := fold_left Qplus (elems t) 0%Q.

(** [Tensor.view(-1)]: the one-dimensional view of the same storage. *)
Definition view_flat (t : Tensor) : Tensor :=
  {| shape := [length (elems t)]; elems := elems t |}.

(** [torch.cat] of one-dimensional tensors along dimension 0.  The library
    call needs at least one tensor; every call site passes the flattened
    parameters of a network with three linear layers. *)
Definition cat (ts : list Tensor) : Tensor :=
  {| shape := [length (concat (map elems ts))];
     elems := concat (map elems ts) |}.

End torch.

(** ** Tensors that require grad

    A value computed from the parameters carries the function of the
    parameters that its autograd graph denotes next to the value stored at
    the time of the forward pass ([value] does not change when the
    optimiser later updates the parameters in place). *)
Record Var (P A : Type) : Type := mkVar { value : A; graph : P -> A }.

Section Autograd.
Context {P : Type}.

Definition leaf (m : P) (sel : P -> Tensor) : Var P Tensor :=
  {| value := sel m; graph := sel |}.

Definition lift {A B} (f : A -> B) (v : Var P A) : Var P B :=
  {| value := f (value v); graph := fun m => f (graph v m) |}.

Definition lift2 {A B C} (f : A -> B -> C) (u : Var P A) (v : Var P B)
  : Var P C :=
  {| value := f (value u) (value v);
     graph := fun m => f (graph u m) (graph v m) |}.

Definition lift_list {A B} (f : list A -> B) (vs : list (Var P A))
  : Var P B :=
  {| value := f (map (@value P A) vs);
     graph := fun m => f (map (fun v => graph v m) vs) |}.
End Autograd.

(** ** Layer stacks *)

Inductive Layer : Type :=
| Flatten
| Linear (in_features out_features : nat)
| ReLU
| Dropout (p : Q)
| Conv2d (in_channels out_channels kernel_size padding : nat)
| MaxPool2d (kernel_size stride : nat).

(** ** Optimiser and loader configuration *)

Inductive Algorithm : Type := Adam | AdamW.

(** [weight_decay = None] leaves the library default in place. *)
Record Optimizer : Type :=
  { algorithm : Algorithm; lr : Q; weight_decay : option Q }.

Record LoaderConfig : Type :=
  { batch_size : nat; shuffle : bool; num_workers : nat }.

(** ** What a run does: library calls and printed lines, in order *)

Inductive Line : Type :=
| StartingEpoch (n : nat)
| LossAfterMiniBatch (n : nat) (digits : nat) (loss : Q)
                     (of_which : list (string * Q))
| TrainingFinished.

Inductive Event : Type :=
| ZeroGrad
| Forward
| ComputeLoss (v : Q)
| Backward (v : Q)
| OptimizerStep
| PrintLine (l : Line).

(** ** The tensor library, as the notebooks use it *)

Class Torch (Model : Type) : Type :=
  { Input : Type;
    Target : Type;
    Output : Type;
    Rng : Type;
    Grads : Type;
    OptState : Type;
    (** [torch.manual_seed]; every operation that draws random numbers
        returns the generator it leaves behind *)
    manual_seed : Z -> Rng;
    (** construction of a module: fresh parameters for a layer stack *)
    init_module : list Layer -> Rng -> Model * Rng;
    (** [nn.Sequential.forward] in training mode *)
    Sequential : list Layer -> Model -> Rng -> Input -> Output * Rng;
    (** [nn.CrossEntropyLoss()] *)
    CrossEntropyLoss : Output -> Target -> Q;
    (** gradient of a scalar graph at the current parameters, and its
        accumulation into the [.grad] buffers *)
    autograd : (Model -> Q) -> Model -> Grads;
    accumulate : option Grads -> Grads -> Grads;
    (** optimiser construction and update *)
    optim_init : Optimizer -> Model -> OptState;
    optim_step : Optimizer -> OptState -> Model -> option Grads
                 -> OptState * Model;
    (** one pass over [DataLoader(MNIST(...), ...)] *)
    DataLoader : LoaderConfig -> Rng -> list (Input * Target) * Rng }.

Section Runtime.
Context {Model : Type} {T : Torch Model}.

(** The state the library holds between two statements of a notebook. *)
Record World : Type :=
  { net : Model;
    grad : option Grads;
    optimizer_state : OptState;
    rng : Rng }.

(** A statement: a result, the next world, and the events it emitted. *)
Definition M (A : Type) : Type := World -> A * World * list Event.

Definition ret {A} (a : A) : M A := fun w => (a, w, []).

Definition bind {A B} (m : M A) (k : A -> M B) : M B :=
  fun w =>
    let r1 := m w in
    let r2 := k (fst (fst r1)) (snd (fst r1)) in
    (fst (fst r2), snd (fst r2), snd r1 ++ snd r2).

Definition result {A} (r : A * World * list Event) : A := fst (fst r).
Definition world {A} (r : A * World * list Event) : World := snd (fst r).
Definition trace {A} (r : A * World * list Event) : list Event := snd r.

(** [optimizer.zero_grad()] *)
Definition zero_grad : M unit :=
  fun w =>
    (tt,
     {| net := net w; grad := None;
        optimizer_state := optimizer_state w; rng := rng w |},
     [ZeroGrad]).

(** [model(inputs)] for a module whose stack is [layers] *)
Definition call (layers : list Layer) (inputs : Input) : M (Var Model Output) :=
  fun w =>
    ({| value := fst (Sequential layers (net w) (rng w) inputs);
        graph := fun m => fst (Sequential layers m (rng w) inputs) |},
     {| net := net w; grad := grad w;
        optimizer_state := optimizer_state w;
        rng := snd (Sequential layers (net w) (rng w) inputs) |},
     [Forward]).

(** [loss_function(outputs, targets)] *)
Definition loss_function (outputs : Var Model Output) (targets : Target)
  : M (Var Model Q) :=
  fun w =>
    let loss := lift (fun o => CrossEntropyLoss o targets) outputs in
    (loss, w, [ComputeLoss (value loss)]).

(** [loss.backward()] *)
Definition backward (loss : Var Model Q) : M unit :=
  fun w =>
    (tt,
     {| net := net w;
        grad := Some (accumulate (grad w) (autograd (graph loss) (net w)));
        optimizer_state := optimizer_state w; rng := rng w |},
     [Backward (value loss)]).

(** [optimizer.step()] *)
Definition step (optimizer : Optimizer) : M unit :=
  fun w =>
    let r := optim_step optimizer (optimizer_state w) (net w) (grad w) in
    (tt,
     {| net := snd r; grad := grad w;
        optimizer_state := fst r; rng := rng w |},
     [OptimizerStep]).

(** [enumerate(trainloader, 0)]: the batches of one pass *)
Definition batches (trainloader : LoaderConfig) : M (list (Input * Target)) :=
  fun w =>
    (fst (DataLoader trainloader (rng w)),
     {| net := net w; grad := grad w;
        optimizer_state := optimizer_state w;
        rng := snd (DataLoader trainloader (rng w)) |},
     []).

(** [print(...)] *)
Definition print (l : Line) : M unit := fun w => (tt, w, [PrintLine l]).

(** The current model, as [mlp.parameters()] reads it. *)
Definition model : M Model := fun w => (net w, w, []).

End Runtime.

Declare Scope monad_scope.
Delimit Scope monad_scope with monad.
Notation "x <- m ;; k" := (bind m (fun x => k))
  (at level 61, m at next level, right associativity) : monad_scope.
Notation "m ;; k" := (bind m (fun _ => k))
  (at level 61, right associativity) : monad_scope.
Open Scope monad_scope.

Section Loops.
Context {Model : Type} {T : Torch Model}.

(** [for i, data in enumerate(xs, i0): s = body(i, data, s)], with [s] the
    local variables the body reassigns. *)
Fixpoint for_enumerate {B St : Type} (body : nat -> B -> St -> M St)
         (i : nat) (xs : list B) (s : St) : M St :=
  match xs with
  | [] => ret s
  | x :: xs' => s' <- body i x s ;; for_enumerate body (S i) xs' s'
  end.

(** [for x in xs: body(x)] *)
Fixpoint for_each {B : Type} (body : B -> M unit) (xs : list B) : M unit :=
  match xs with
  | [] => ret tt
  | x :: xs' => body x ;; for_each body xs'
  end.

(** The world a notebook is in when its training loop starts:
    [torch.manual_seed(42)], construction of the module, construction of
    the optimiser. *)
Definition initial_world (layers : list Layer) (optimizer : Optimizer)
  : World :=
  let r := init_module layers (manual_seed 42) in
  {| net := fst r; grad := None;
     optimizer_state := optim_init optimizer (fst r);
     rng := snd r |}.
End Loops.

(** ** The multilayer perceptron of the regularisation notebooks

    Three linear layers, each with a weight and a bias. *)
Record LinearParams : Type := { weight : Tensor; bias : Tensor }.

Record MLP : Type :=
  { fc1 : LinearParams; fc2 : LinearParams; fc3 : LinearParams }.

(** [mlp.parameters()], in registration order. *)
Definition parameters (m : MLP) : list (Var MLP Tensor) :=
  map (leaf m)
      [ (fun m => weight (fc1 m)); (fun m => bias (fc1 m));
        (fun m => weight (fc2 m)); (fun m => bias (fc2 m));
        (fun m => weight (fc3 m)); (fun m => bias (fc3 m)) ].

(** The loop that collects the flattened parameters:
    [ps = []; for parameter in mlp.parameters(): ps.append(parameter.view(-1))] *)
Definition flattened (ps : list (Var MLP Tensor)) : list (Var MLP Tensor) :=
  fold_left (fun acc parameter => acc ++ [lift torch.view_flat parameter])
            ps [].

(** ** Notebook: L1 regularisation *)
Module L1.
Section Notebook.
Context {T : Torch MLP}.

Definition layers : list Layer :=
  [Flatten; Linear (28 * 28 * 1) 64; ReLU; Linear 64 32; ReLU; Linear 32 10].

Definition forward (x : Input) : M (Var MLP Output) := call layers x.

Definition compute_l1_loss (w : Tensor) : Q := torch.sum (torch.abs w).

Definition trainloader : LoaderConfig :=
  {| batch_size := 64; shuffle := true; num_workers := 6 |}.

Definition optimizer : Optimizer :=
  {| algorithm := AdamW; lr := (1 # 10000)%Q; weight_decay := None |}.

Definition iteration (i : nat) (data : Input * Target) (_ : unit) : M unit :=
  let inputs := fst data in
  let targets := snd data in
  zero_grad ;;
  outputs <- forward inputs ;;
  loss <- loss_function outputs targets ;;
  let l1_weight := 1%Q in
  mlp <- model ;;
  let l1_parameters := flattened (parameters mlp) in
  let l1 :=
    lift (Qmult l1_weight)
         (lift compute_l1_loss (lift_list torch.cat l1_parameters)) in
  let loss := lift2 Qplus loss l1 in
  backward loss ;;
  step optimizer ;;
  let minibatch_loss := value loss in
  if i mod 500 =? 499
  then print (LossAfterMiniBatch (i + 1) 5 minibatch_loss
                                 [("L1"%string, value l1)])
  else ret tt.

Definition epoch (epoch : nat) : M unit :=
  print (StartingEpoch (epoch + 1)) ;;
  data <- batches trainloader ;;
  for_enumerate iteration 0 data tt.

Definition main : list Event :=
  trace ((for_each epoch (seq 0 5) ;; print TrainingFinished)
           (initial_world layers optimizer)).
End Notebook.
End L1.

(** ** Notebook: L2 regularisation *)
Module L2.
Section Notebook.
Context {T : Torch MLP}.

Definition layers : list Layer :=
  [Flatten; Linear (28 * 28 * 1) 64; ReLU; Linear 64 32; ReLU; Linear 32 10].

Definition forward (x : Input) : M (Var MLP Output) := call layers x.

Definition compute_l2_loss (w : Tensor) : Q := torch.sum (torch.square w).

Definition trainloader : LoaderConfig :=
  {| batch_size := 64; shuffle := true; num_workers := 6 |}.

Definition optimizer : Optimizer :=
  {| algorithm := AdamW; lr := (1 # 10000)%Q; weight_decay := None |}.

Definition iteration (i : nat) (data : Input * Target) (_ : unit) : M unit :=
  let inputs := fst data in
  let targets := snd data in
  zero_grad ;;
  outputs <- forward inputs ;;
  loss <- loss_function outputs targets ;;
  let l2_weight := 1%Q in
  mlp <- model ;;
  let l2_parameters := flattened (parameters mlp) in
  let l2 :=
    lift (Qmult l2_weight)
         (lift compute_l2_loss (lift_list torch.cat l2_parameters)) in
  let loss := lift2 Qplus loss l2 in
  backward loss ;;
  step optimizer ;;
  let minibatch_loss := value loss in
  if i mod 500 =? 499
  then print (LossAfterMiniBatch (i + 1) 5 minibatch_loss
                                 [("l2"%string, value l2)])
  else ret tt.

Definition epoch (epoch : nat) : M unit :=
  print (StartingEpoch (epoch + 1)) ;;
  data <- batches trainloader ;;
  for_enumerate iteration 0 data tt.

Definition main : list Event :=
  trace ((for_each epoch (seq 0 5) ;; print TrainingFinished)
           (initial_world layers optimizer)).
End Notebook.
End L2.

(** ** Notebook: Elastic Net regularisation *)
Module ElasticNet.
Section Notebook.
Context {T : Torch MLP}.

Definition layers : list Layer :=
  [Flatten; Linear (28 * 28 * 1) 64; ReLU; Linear 64 32; ReLU; Linear 32 10].

Definition forward (x : Input) : M (Var MLP Output) := call layers x.

Definition compute_l1_loss (w : Tensor) : Q := torch.sum (torch.abs w).

Definition compute_l2_loss (w : Tensor) : Q := torch.sum (torch.square w).

Definition trainloader : LoaderConfig :=
  {| batch_size := 64; shuffle := true; num_workers := 6 |}.

Definition optimizer : Optimizer :=
  {| algorithm := AdamW; lr := (1 # 10000)%Q; weight_decay := None |}.

Definition iteration (i : nat) (data : Input * Target) (_ : unit) : M unit :=
  let inputs := fst data in
  let targets := snd data in
  zero_grad ;;
  outputs <- forward inputs ;;
  loss <- loss_function outputs targets ;;
  let l1_weight := (3 # 10)%Q in
  let l2_weight := (7 # 10)%Q in
  mlp <- model ;;
  let parameters := flattened (parameters mlp) in
  let l1 :=
    lift (Qmult l1_weight)
         (lift compute_l1_loss (lift_list torch.cat parameters)) in
  let l2 :=
    lift (Qmult l2_weight)
         (lift compute_l2_loss (lift_list torch.cat parameters)) in
  let loss := lift2 Qplus loss l1 in
  let loss := lift2 Qplus loss l2 in
  backward loss ;;
  step optimizer ;;
  let minibatch_loss := value loss in
  if i mod 500 =? 499
  then print (LossAfterMiniBatch (i + 1) 5 minibatch_loss
                                 [("L1"%string, value l1);
                                  ("L2"%string, value l2)])
  else ret tt.

Definition epoch (epoch : nat) : M unit :=
  print (StartingEpoch (epoch + 1)) ;;
  data <- batches trainloader ;;
  for_enumerate iteration 0 data tt.

Definition main : list Event :=
  trace ((for_each epoch (seq 0 5) ;; print TrainingFinished)
           (initial_world layers optimizer)).
End Notebook.
End ElasticNet.

(** ** Notebook: Dropout, with weight decay set on the optimiser *)
Module DropoutNb.
Section Notebook.
Context {T : Torch MLP}.

Definition layers : list Layer :=
  [Flatten;
   Linear (28 * 28 * 1) 64; Dropout (5 # 10); ReLU;
   Linear 64 32; Dropout (5 # 10); ReLU;
   Linear 32 10].

Definition forward (x : Input) : M (Var MLP Output) := call layers x.

Definition trainloader : LoaderConfig :=
  {| batch_size := 64; shuffle := true; num_workers := 6 |}.

Definition optimizer : Optimizer :=
  {| algorithm := AdamW; lr := (1 # 10000)%Q; weight_decay := Some 1%Q |}.

Definition iteration (i : nat) (data : Input * Target) (current_loss : Q)
  : M Q :=
  let inputs := fst data in
  let targets := snd data in
  zero_grad ;;
  outputs <- forward inputs ;;
  loss <- loss_function outputs targets ;;
  backward loss ;;
  step optimizer ;;
  let current_loss := (current_loss + value loss)%Q in
  if i mod 500 =? 499
  then print (LossAfterMiniBatch (i + 1) 3 (current_loss / 500)%Q []) ;;
       ret 0%Q
  else ret current_loss.

Definition epoch (epoch : nat) : M unit :=
  print (StartingEpoch (epoch + 1)) ;;
  let current_loss := 0%Q in
  data <- batches trainloader ;;
  _ <- for_enumerate iteration 0 data current_loss ;;
  ret tt.

Definition main : list Event :=
  trace ((for_each epoch (seq 0 5) ;; print TrainingFinished)
           (initial_world layers optimizer)).
End Notebook.
End DropoutNb.

(** ** Notebook: convolutional network *)
Module CNN.

(** Parameters of [ConvNet]: two convolutions and three linear layers,
    named by their position in the stack. *)
Record ConvNet : Type :=
  { layers_0 : LinearParams; layers_2 : LinearParams;
    layers_5 : LinearParams; layers_7 : LinearParams;
    layers_9 : LinearParams }.

Definition layers : list Layer :=
  [Conv2d 1 10 3 0; ReLU;
   Conv2d 10 5 3 0; ReLU;
   Flatten;
   Linear (24 * 24 * 5) 64; ReLU;
   Linear 64 32; ReLU;
   Linear 32 10].

(** Parameters of the notebook's second class, [ConvNet2]: four
    convolutions and two linear layers, named by their position in the
    stack. *)
Record ConvNet2 : Type :=
  { conv_0 : LinearParams; conv_3 : LinearParams;
    conv_6 : LinearParams; conv_9 : LinearParams;
    linear_13 : LinearParams; linear_16 : LinearParams }.

(** [ConvNet2.__init__]: the stack it builds; the defaults are
    [num_of_input_channels=1], [num_of_classes=10], [dropout_prob=0.2].
    [None] is the [ValueError] that the constructor of the dropout layer
    raises for a probability outside [0, 1]. *)
Definition ConvNet2_layers (num_of_input_channels num_of_classes : nat)
           (dropout_prob : Q) : option (list Layer) :=
  if Qle_bool 0 dropout_prob && Qle_bool dropout_prob 1
  then Some
         [Conv2d num_of_input_channels 32 3 0; ReLU; MaxPool2d 2 2;
          Conv2d 32 64 3 0; ReLU; MaxPool2d 2 2;
          Conv2d 64 128 3 1; ReLU; MaxPool2d 2 2;
          Conv2d 128 64 3 1; ReLU; MaxPool2d 2 2;
          Flatten;
          Linear 64 128; ReLU; Dropout dropout_prob;
          Linear 128 num_of_classes]
  else None.

Section Second.
Context {T : Torch ConvNet2}.

(** [ConvNet2.forward], for an instance whose stack is [self_layers]. *)
Definition ConvNet2_forward (self_layers : list Layer) (x : Input)
  : M (Var ConvNet2 Output) := call self_layers x.
End Second.

Section Notebook.
Context {T : Torch ConvNet}.

Definition forward (x : Input) : M (Var ConvNet Output) := call layers x.

Definition trainloader : LoaderConfig :=
  {| batch_size := 10; shuffle := true; num_workers := 4 |}.

Definition optimizer : Optimizer :=
  {| algorithm := Adam; lr := (1 # 10000)%Q; weight_decay := None |}.

Definition iteration (i : nat) (data : Input * Target) (current_loss : Q)
  : M Q :=
  let inputs := fst data in
  let targets := snd data in
  zero_grad ;;
  outputs <- forward inputs ;;
  loss <- loss_function outputs targets ;;
  backward loss ;;
  step optimizer ;;
  let current_loss := (current_loss + value loss)%Q in
  if i mod 500 =? 499
  then print (LossAfterMiniBatch (i + 1) 6 (current_loss / 500)%Q []) ;;
       ret 0%Q
  else ret current_loss.

Definition epoch (epoch : nat) : M unit :=
  print (StartingEpoch (epoch + 1)) ;;
  let current_loss := 0%Q in
  data <- batches trainloader ;;
  _ <- for_enumerate iteration 0 data current_loss ;;
  ret tt.

Definition main : list Event :=
  trace ((for_each epoch (seq 0 3) ;; print TrainingFinished)
           (initial_world layers optimizer)).
End Notebook.
End CNN.

(** ** Shapes through a layer stack

    The shape rules of the layers the notebooks use (stride 1 and dilation 1
    for convolutions, [start_dim = 1] for [Flatten]); [None] is the shape
    error the library raises. *)
Module Shapes.

Definition conv_out (size kernel padding : nat) : option nat :=
  if (0 <? kernel) && (kernel <=? size + 2 * padding)
  then Some (size + 2 * padding - kernel + 1)
  else None.

Definition pool_out (size kernel stride : nat) : option nat :=
  if (0 <? kernel) && (0 <? stride) && (kernel <=? size)
  then Some ((size - kernel) / stride + 1)
  else None.

Definition window (f : nat -> option nat) (h w : nat) (k : nat -> nat -> list nat)
  : option (list nat) :=
  match f h, f w with
  | Some h', Some w' => Some (k h' w')
  | _, _ => None
  end.

Definition layer_shape (l : Layer) (s : list nat) : option (list nat) :=
  match l with
  | Flatten =>
      match s with
      | n :: d :: rest => Some [n; fold_right Nat.mul 1 (d :: rest)]
      | _ => None
      end
  | Linear fin fout =>
      match rev s with
      | f :: lead => if f =? fin then Some (rev (fout :: lead)) else None
      | [] => None
      end
  | ReLU => Some s
  | Dropout _ => Some s
  | Conv2d cin cout k p =>
      match s with
      | [n; c; h; w] =>
          if c =? cin
          then window (fun x => conv_out x k p) h w (fun h' w' => [n; cout; h'; w'])
          else None
      | [c; h; w] =>
          if c =? cin
          then window (fun x => conv_out x k p) h w (fun h' w' => [cout; h'; w'])
          else None
      | _ => None
      end
  | MaxPool2d k st =>
      match s with
      | [n; c; h; w] =>
          window (fun x => pool_out x k st) h w (fun h' w' => [n; c; h'; w'])
      | [c; h; w] =>
          window (fun x => pool_out x k st) h w (fun h' w' => [c; h'; w'])
      | _ => None
      end
  end.

(** The output shape of every layer of the stack, first layer first, as
    the notebook's [summary] call tabulates them. *)
Fixpoint summary (layers : list Layer) (s : list nat)
  : option (list (list nat)) :=
  match layers with
  | [] => Some []
  | l :: layers' =>
      match layer_shape l s with
      | Some s' =>
          match summary layers' s' with
          | Some rest => Some (s' :: rest)
          | None => None
          end
      | None => None
      end
  end.

(** The shape [forward] returns. *)
Definition forward_shape (layers : list Layer) (s : list nat)
  : option (list nat) :=
  match summary layers s with
  | Some shapes => Some (last shapes s)
  | None => None
  end.

End Shapes.

(** A tensor library whose forward pass follows these shape rules: its
    inputs have a shape, and what a forward pass hands back is either a
    tensor of some shape or the shape error it raised ([None]). *)
Class ShapeChecked {Model : Type} (T : Torch Model) : Type :=
  { input_shape : Input -> list nat;
    output_shape : Output -> option (list nat);
    Sequential_shape :
      forall (layers : list Layer) (m : Model) (g : Rng) (x : Input),
        output_shape (fst (Sequential layers m g x))
        = Shapes.forward_shape layers (input_shape x) }.

(** ** Reading a trace *)

Definition losses_computed (tr : list Event) : list Q :=
  flat_map (fun e => match e with ComputeLoss v => [v] | _ => [] end) tr.

Definition backpropagated (tr : list Event) : list Q :=
  flat_map (fun e => match e with Backward v => [v] | _ => [] end) tr.

Definition printed (tr : list Event) : list Line :=
  flat_map (fun e => match e with PrintLine l => [l] | _ => [] end) tr.

(** The statistics lines: mini-batch number and loss figure. *)
Definition loss_figures (tr : list Event) : list (nat * Q) :=
  flat_map (fun e => match e with
                     | PrintLine (LossAfterMiniBatch n _ v _) => [(n, v)]
                     | _ => []
                     end) tr.

(** The library calls of a trace, without their payloads. *)
Inductive Call : Type :=
  CallZeroGrad | CallForward | CallLoss | CallBackward | CallStep.

Definition calls (tr : list Event) : list Call :=
  flat_map (fun e => match e with
                     | ZeroGrad => [CallZeroGrad]
                     | Forward => [CallForward]
                     | ComputeLoss _ => [CallLoss]
                     | Backward _ => [CallBackward]
                     | OptimizerStep => [CallStep]
                     | PrintLine _ => []
                     end) tr.

(** The tensors of an [MLP], as [parameters] lists them. *)
Definition tensors (m : MLP) : list Tensor :=
  [ weight (fc1 m); bias (fc1 m);
    weight (fc2 m); bias (fc2 m);
    weight (fc3 m); bias (fc3 m) ].

(** Sums as the specification writes them. *)
Definition sum_abs (xs : list Q) : Q :=
  fold_right (fun x acc => Qabs x + acc)%Q 0%Q xs.

Definition sum_squares (xs : list Q) : Q :=
  fold_right (fun x acc => x * x + acc)%Q 0%Q xs.

Definition sum_list (xs : list Q) : Q := fold_right Qplus 0%Q xs.

(** A stack with its dropout layers taken out. *)
Definition without_dropout (layers : list Layer) : list Layer :=
  filter (fun l => match l with Dropout _ => false | _ => true end) layers.

(** ** Blocks of 500 mini-batches *)

(** The [k]-th block of 500 consecutive values of [items]. *)
Definition block (k : nat) (items : list Q) : list Q :=
  firstn 500 (skipn (k * 500) items).

(** One figure per complete block: the mini-batch number that closes the
    block, and the values of the block summed up from zero and divided by
    500. *)
Definition mean_of_blocks (items : list Q) : list (nat * Q) :=
  map (fun k => ((k + 1) * 500, (fold_left Qplus (block k items) 0 / 500)%Q))
      (seq 0 (length items / 500)).

(** One figure per complete block: the mini-batch number that closes the
    block, and the last value of the block. *)
Definition last_of_blocks (items : list Q) : list (nat * Q) :=
  map (fun k => ((k + 1) * 500, last (block k items) 0%Q))
      (seq 0 (length items / 500)).

(** The statistics of a loop that folds each loss into an accumulator with
    [f], reports [out] of the accumulator when [i % 500 == 499] and then
    restarts from [a0]. *)
Fixpoint running {A : Type} (f : A -> Q -> A) (out : A -> Q) (a0 : A)
         (i : nat) (a : A) (items : list Q) : list (nat * Q) :=
  match items with
  | [] => []
  | v :: items' =>
      if i mod 500 =? 499
      then (i + 1, out (f a v)) :: running f out a0 (S i) a0 items'
      else running f out a0 (S i) (f a v) items'
  end.

(** The five library calls of one mini-batch iteration. *)
Definition five_steps : list Call :=
  [CallZeroGrad; CallForward; CallLoss; CallBackward; CallStep].

(** A trace without its numbers: which call, which line for which epoch or
    mini-batch. *)
Inductive Outline : Type :=
| OCall (c : Call)
| OEpoch (n : nat)
| OLoss (n : nat)
| OFinished.

Definition outline (tr : list Event) : list Outline :=
  map (fun e => match e with
                | ZeroGrad => OCall CallZeroGrad
                | Forward => OCall CallForward
                | ComputeLoss _ => OCall CallLoss
                | Backward _ => OCall CallBackward
                | OptimizerStep => OCall CallStep
                | PrintLine (StartingEpoch n) => OEpoch n
                | PrintLine (LossAfterMiniBatch n _ _ _) => OLoss n
                | PrintLine TrainingFinished => OFinished
                end) tr.

Definition iteration_outline (i : nat) : list Outline :=
  map OCall five_steps ++ (if i mod 500 =? 499 then [OLoss (i + 1)] else []).

Section EpochTraces.
Context {Model : Type} {T : Torch Model}.

(** The traces of the successive passes of the outer loop. *)
Fixpoint epoch_traces (epoch : nat -> M unit) (epochs : list nat) (w : World)
  : list (list Event) :=
  match epochs with
  | [] => []
  | e :: epochs' =>
      trace (epoch e w) :: epoch_traces epoch epochs' (world (epoch e w))
  end.
End EpochTraces.

(** ** The sentences about the printed statistics, as predicates on traces *)

(** In the trace [tr] of one epoch, every statistics line closes a block
    of 500 mini-batches of that epoch and shows the loss accumulated over
    that block (its sum, or its sum over 500). *)
Definition prints_accumulated_loss (tr : list Event) : Prop :=
  Forall2 (fun fig k =>
             fst fig = (k + 1) * 500 /\
             (snd fig == sum_list (block k (backpropagated tr)) \/
              snd fig == sum_list (block k (backpropagated tr)) / 500)%Q)
          (loss_figures tr)
          (seq 0 (length (backpropagated tr) / 500)).

(** Two runs show the same figures after the same mini-batches. *)
Definition same_statistics (tr1 tr2 : list Event) : Prop :=
  Forall2 (fun a b => fst a = fst b /\ (snd a == snd b)%Q)
          (loss_figures tr1) (loss_figures tr2).

(** ** A small instance of the library

    Inputs are rationals, the network returns its input, the loss of an
    output is that output, gradients and optimiser state are trivial, the
    optimiser leaves the parameters alone, and every pass of the loader
    yields [n] batches with inputs 1, 2, ..., [n].  Regularisation has no
    effect on it as soon as the parameters are zero. *)
Module Toy.

Definition constant (x : Q) : Tensor := {| shape := [1]; elems := [x] |}.

Definition zero_mlp : MLP :=
  {| fc1 := {| weight := constant 0; bias := constant 0 |};
     fc2 := {| weight := constant 0; bias := constant 0 |};
     fc3 := {| weight := constant 0; bias := constant 0 |} |}.

Definition small_mlp : MLP :=
  {| fc1 := {| weight := {| shape := [1; 2]; elems := [1; -2]%Q |};
               bias := constant (1 # 2) |};
     fc2 := {| weight := constant (-3); bias := constant 0 |};
     fc3 := {| weight := constant 4; bias := constant (-1 # 2) |} |}.

Definition loader (n : nat) : list (Q * unit) :=
  map (fun k => (inject_Z (Z.of_nat k), tt)) (seq 1 n).

Definition zero_convnet : CNN.ConvNet :=
  {| CNN.layers_0 := {| weight := constant 0; bias := constant 0 |};
     CNN.layers_2 := {| weight := constant 0; bias := constant 0 |};
     CNN.layers_5 := {| weight := constant 0; bias := constant 0 |};
     CNN.layers_7 := {| weight := constant 0; bias := constant 0 |};
     CNN.layers_9 := {| weight := constant 0; bias := constant 0 |} |}.

Definition library {Model : Type} (m0 : Model) (n : nat) : Torch Model :=
  {| Input := Q; Target := unit; Output := Q;
     Rng := unit; Grads := unit; OptState := unit;
     manual_seed := fun _ => tt;
     init_module := fun _ g => (m0, g);
     Sequential := fun _ _ g x => (x, g);
     CrossEntropyLoss := fun o _ => o;
     autograd := fun _ _ => tt;
     accumulate := fun _ _ => tt;
     optim_init := fun _ _ => tt;
     optim_step := fun _ s m _ => (s, m);
     DataLoader := fun _ g => (loader n, g) |}.

Definition world {Model : Type} (m : Model) (n : nat)
  : @World Model (library m n) :=
  @Build_World Model (library m n) m None tt tt.

(** Figures with their fractions in lowest terms. *)
Definition reduced (figs : list (nat * Q)) : list (nat * Q) :=
  map (fun fig => (fst fig, Qred (snd fig))) figs.

(** A second instance, for shapes: a tensor is its shape alone, a forward
    pass computes the shape of its result by the rules of [Shapes], and
    nothing else happens. *)
Definition shapes {Model : Type} (m0 : Model) : Torch Model :=
  {| Input := list nat; Target := unit; Output := option (list nat);
     Rng := unit; Grads := unit; OptState := unit;
     manual_seed := fun _ => tt;
     init_module := fun _ g => (m0, g);
     Sequential := fun layers _ g x => (Shapes.forward_shape layers x, g);
     CrossEntropyLoss := fun _ _ => 0%Q;
     autograd := fun _ _ => tt;
     accumulate := fun _ _ => tt;
     optim_init := fun _ _ => tt;
     optim_step := fun _ s m _ => (s, m);
     DataLoader := fun _ g => ([], g) |}.

Definition shapes_checked {Model : Type} (m0 : Model)
  : ShapeChecked (shapes m0) :=
  {| input_shape := fun x : @Input Model (shapes m0) => x;
     output_shape := fun o : @Output Model (shapes m0) => o;
     Sequential_shape := fun _ _ _ _ => eq_refl |}.

Definition shapes_world {Model : Type} (m : Model)
  : @World Model (shapes m) :=
  @Build_World Model (shapes m) m None tt tt.

Definition zero_convnet2 : CNN.ConvNet2 :=
  {| CNN.conv_0 := {| weight := constant 0; bias := constant 0 |};
     CNN.conv_3 := {| weight := constant 0; bias := constant 0 |};
     CNN.conv_6 := {| weight := constant 0; bias := constant 0 |};
     CNN.conv_9 := {| weight := constant 0; bias := constant 0 |};
     CNN.linear_13 := {| weight := constant 0; bias := constant 0 |};
     CNN.linear_16 := {| weight := constant 0; bias := constant 0 |} |}.

End Toy.

(** ** Further readings of worlds, losses and stacks *)

Section Readings.
Context {Model : Type} {T : Torch Model}.

(** The same world with other contents in the [.grad] buffers. *)
Definition with_grad (g : option Grads) (w : World) : World :=
  {| net := net w; grad := g;
     optimizer_state := optimizer_state w; rng := rng w |}.

(** The cross-entropy of the forward pass of [data] through [layers], as a
    function of the parameters, with the random numbers of world [w]. *)
Definition cross_entropy (layers : list Layer) (w : World)
           (data : Input * Target) (m : Model) : Q :=
  CrossEntropyLoss (fst (Sequential layers m (rng w) (fst data))) (snd data).

(** The world after the five calls of an iteration that backpropagates the
    loss function [loss]. *)
Definition updated (layers : list Layer) (optimizer : Optimizer)
           (loss : Model -> Q) (w : World) (data : Input * Target) : World :=
  let g := Some (accumulate None (autograd loss (net w))) in
  let r := optim_step optimizer (optimizer_state w) (net w) g in
  {| net := snd r; grad := g; optimizer_state := fst r;
     rng := snd (Sequential layers (net w) (rng w) (fst data)) |}.
End Readings.

(** The concatenation of the flattened parameters of an [MLP]. *)
Definition flat_parameters (m : MLP) : Tensor :=
  torch.cat (map torch.view_flat (tensors m)).

(** ** The penalties in single precision

    The parameters are [float32] tensors.  A number is a binary floating
    point number of 24 significant bits, every operation rounds to the
    nearest such number (ties to even), and a reduction adds the elements
    one after the other in storage order, starting from zero. *)
Module float32.

Definition prec : Z := 24.
Definition emax : Z := 128.

Definition zero : spec_float := S754_zero false.

Definition add (x y : spec_float) : spec_float := SFadd prec emax x y.

Definition mul (x y : spec_float) : spec_float := SFmul prec emax x y.

Definition abs (x : spec_float) : spec_float := SFabs x.

(** The [float32] nearest to an integer. *)
Definition of_Z (z : Z) : spec_float := binary_normalize prec emax z 0 false.

End float32.

Record FloatTensor : Type :=
  mkFloatTensor { fshape : list nat; felems : list spec_float }.

(** Equality of two lists of sizes. *)
Fixpoint same_sizes (s1 s2 : list nat) : bool :=
  match s1, s2 with
  | [], [] => true
  | a :: s1', b :: s2' => (a =? b) && same_sizes s1' s2'
  | _, _ => false
  end.

Module torch_float32.

Definition abs (t : FloatTensor) : FloatTensor :=
  {| fshape := fshape t; felems := map float32.abs (felems t) |}.

Definition square (t : FloatTensor) : FloatTensor :=
  {| fshape := fshape t; felems := map (fun x => float32.mul x x) (felems t) |}.

Definition sum (t : FloatTensor) : spec_float :=
  fold_left float32.add (felems t) float32.zero.

Definition view_flat (t : FloatTensor) : FloatTensor :=
  {| fshape := [length (felems t)]; felems := felems t |}.

(** [torch.cat] along dimension 0.  [None] is the error it raises: for an
    empty list, for a tensor without dimensions, and for tensors that
    differ in rank or in a size other than the first.  One-dimensional
    tensors of size 0 are skipped, whatever the shapes of the others. *)
Definition cat (ts : list FloatTensor) : option FloatTensor :=
  match ts with
  | [] => None
  | _ :: _ =>
      match filter (fun t => negb (same_sizes (fshape t) [0])) ts with
      | [] => Some {| fshape := [0]; felems := [] |}
      | t :: ts' =>
          match fshape t with
          | [] => None
          | _ :: sizes =>
              if forallb (fun u => match fshape u with
                                   | [] => false
                                   | _ :: sizes' => same_sizes sizes' sizes
                                   end) ts'
              then Some {| fshape :=
                             list_sum (map (fun u => hd 0 (fshape u)) (t :: ts'))
                             :: sizes;
                           felems := concat (map felems (t :: ts')) |}
              else None
          end
      end
  end.

(** [compute_l1_loss] and [compute_l2_loss] of the three penalty
    notebooks, on [float32] tensors. *)
Definition compute_l1_loss (w : FloatTensor) : spec_float := sum (abs w).

Definition compute_l2_loss (w : FloatTensor) : spec_float := sum (square w).



End torch_float32.

(** The outline of a whole run whose epochs, numbered from [first + 1],
    have [ns] mini-batches. *)
Definition run_outline (first : nat) (ns : list nat) : list Outline :=
  flat_map (fun en => OEpoch (fst en + 1)
                        :: flat_map iteration_outline (seq 0 (snd en)))
           (combine (seq first (length ns)) ns)
  ++ [OFinished].

(** * Properties *)

(** ** Sums *)

Lemma fold_left_Qplus (xs : list Q) (a : Q) :
  (fold_left Qplus xs a == a + sum_list xs)%Q.
Proof.
  revert a; induction xs as [|x xs IH]; intro a; simpl.
  - ring.
  - rewrite IH. ring.
Qed.

Lemma torch_sum_sum_list (t : Tensor) : (torch.sum t == sum_list (elems t))%Q.
Proof. unfold torch.sum. rewrite fold_left_Qplus. ring. Qed.


Lemma sum_list_map_abs (xs : list Q) : sum_list (map Qabs xs) = sum_abs xs.
Proof. induction xs as [|x xs IH]; simpl; congruence. Qed.

Lemma sum_list_map_square (xs : list Q) :
  sum_list (map (fun x => x * x)%Q xs) = sum_squares xs.
Proof. induction xs as [|x xs IH]; simpl; congruence. Qed.

Lemma sum_of_abs (t : Tensor) :
  (torch.sum (torch.abs t) == sum_abs (elems t))%Q.
Proof. rewrite torch_sum_sum_list. simpl. now rewrite sum_list_map_abs. Qed.

Lemma sum_of_squares (t : Tensor) :
  (torch.sum (torch.square t) == sum_squares (elems t))%Q.
Proof. rewrite torch_sum_sum_list. simpl. now rewrite sum_list_map_square. Qed.

Lemma elems_cat_views (ts : list Tensor) :
  elems (torch.cat (map torch.view_flat ts)) = concat (map elems ts).
Proof.
  simpl. f_equal. rewrite map_map. apply map_ext. reflexivity.
Qed.

Section Additivity.
(** An element-wise penalty [g], summed over a concatenation. *)
Variable g : Q -> Q.



End Additivity.

(** ** The penalty terms *)

Lemma parameters_tensors (m : MLP) :
  map (@value MLP Tensor) (parameters m) = tensors m.
Proof. reflexivity. Qed.

Lemma flattened_map (ps : list (Var MLP Tensor)) :
  flattened ps = map (lift torch.view_flat) ps.
Proof.
  unfold flattened.
  enough (H : forall acc,
             fold_left (fun acc p => acc ++ [lift torch.view_flat p]) ps acc
             = acc ++ map (lift torch.view_flat) ps) by apply (H []).
  induction ps as [|p ps IH]; intro acc; simpl.
  - now rewrite app_nil_r.
  - rewrite IH, <- app_assoc. reflexivity.
Qed.

(** C1.  In the L1 notebook, whatever the mini-batch, its number and the
    state of the run, the loss handed to [backward] is the cross-entropy of
    the forward pass plus 1.0 times [compute_l1_loss] of the concatenated
    flattened parameters, both as a value and as the function of the
    parameters that is differentiated; and [compute_l1_loss w] is the sum
    of the absolute values of the elements of [w]. *)
Theorem L1_loss_backpropagated :
  forall (T : Torch MLP) (i : nat) (data : Input * Target) (w : World),
    let ce := fun m =>
      CrossEntropyLoss (fst (Sequential L1.layers m (rng w) (fst data)))
                       (snd data) in
    let flat := fun m => torch.cat (map torch.view_flat (tensors m)) in
    let r := L1.iteration i data tt w in
    losses_computed (trace r) = [ce (net w)] /\
    backpropagated (trace r)
    = [(ce (net w) + 1 * L1.compute_l1_loss (flat (net w)))%Q] /\
    grad (world r)
    = Some (accumulate None
              (autograd
                 (fun m => (ce m + 1 * L1.compute_l1_loss (flat m))%Q)
                 (net w))) /\
    elems (flat (net w)) = concat (map elems (tensors (net w))) /\
    forall t : Tensor, (L1.compute_l1_loss t == sum_abs (elems t))%Q.
Proof.
  intros T i data w ce flat r.
  assert (Hsum : forall t, (L1.compute_l1_loss t == sum_abs (elems t))%Q)
    by (intro t; apply sum_of_abs).
  assert (Hflat : elems (flat (net w)) = concat (map elems (tensors (net w))))
    by apply elems_cat_views.
  subst r. unfold L1.iteration.
  destruct (i mod 500 =? 499); cbn; repeat split; auto.
Qed.

(** C2.  In the Elastic Net notebook the loss handed to [backward] is the
    cross-entropy plus 0.3 times [compute_l1_loss] plus 0.7 times
    [compute_l2_loss] of the concatenated flattened parameters, so that the
    penalty added is 0.3 times the sum of the absolute values plus 0.7 times
    the sum of the squares of all parameter elements. *)
Theorem ElasticNet_penalty :
  forall (T : Torch MLP) (i : nat) (data : Input * Target) (w : World),
    let ce := fun m =>
      CrossEntropyLoss (fst (Sequential ElasticNet.layers m (rng w) (fst data)))
                       (snd data) in
    let flat := fun m => torch.cat (map torch.view_flat (tensors m)) in
    let l1 := fun m => ((3 # 10) * ElasticNet.compute_l1_loss (flat m))%Q in
    let l2 := fun m => ((7 # 10) * ElasticNet.compute_l2_loss (flat m))%Q in
    let r := ElasticNet.iteration i data tt w in
    losses_computed (trace r) = [ce (net w)] /\
    backpropagated (trace r) = [(ce (net w) + l1 (net w) + l2 (net w))%Q] /\
    grad (world r)
    = Some (accumulate None
              (autograd (fun m => (ce m + l1 m + l2 m)%Q) (net w))) /\
    (ce (net w) + l1 (net w) + l2 (net w)
     == ce (net w)
        + ((3 # 10) * sum_abs (concat (map elems (tensors (net w))))
           + (7 # 10) * sum_squares (concat (map elems (tensors (net w))))))%Q.
Proof.
  intros T i data w ce flat l1 l2 r.
  assert (Hpen :
    (ce (net w) + l1 (net w) + l2 (net w)
     == ce (net w)
        + ((3 # 10) * sum_abs (concat (map elems (tensors (net w))))
           + (7 # 10) * sum_squares (concat (map elems (tensors (net w))))))%Q).
  { subst l1 l2. cbv beta. unfold ElasticNet.compute_l1_loss,
      ElasticNet.compute_l2_loss.
    rewrite sum_of_abs, sum_of_squares.
    subst flat. cbv beta. rewrite elems_cat_views. ring. }
  subst r. unfold ElasticNet.iteration.
  destruct (i mod 500 =? 499); cbn; repeat split; auto.
Qed.

(** C6.  In the L2 notebook [compute_l2_loss w] is the sum of the squares of
    the elements of [w], and the loss handed to [backward] is the
    cross-entropy of the forward pass plus 1.0 times [compute_l2_loss] of
    the concatenated flattened parameters. *)
Theorem L2_loss_backpropagated :
  forall (T : Torch MLP) (i : nat) (data : Input * Target) (w : World),
    let ce := fun m =>
      CrossEntropyLoss (fst (Sequential L2.layers m (rng w) (fst data)))
                       (snd data) in
    let flat := fun m => torch.cat (map torch.view_flat (tensors m)) in
    let r := L2.iteration i data tt w in
    (forall t : Tensor, (L2.compute_l2_loss t == sum_squares (elems t))%Q) /\
    losses_computed (trace r) = [ce (net w)] /\
    backpropagated (trace r)
    = [(ce (net w) + 1 * L2.compute_l2_loss (flat (net w)))%Q] /\
    grad (world r)
    = Some (accumulate None
              (autograd
                 (fun m => (ce m + 1 * L2.compute_l2_loss (flat m))%Q)
                 (net w))) /\
    elems (flat (net w)) = concat (map elems (tensors (net w))).
Proof.
  intros T i data w ce flat r.
  assert (Hsum : forall t, (L2.compute_l2_loss t == sum_squares (elems t))%Q)
    by (intro t; apply sum_of_squares).
  assert (Hflat : elems (flat (net w)) = concat (map elems (tensors (net w))))
    by apply elems_cat_views.
  subst r. unfold L2.iteration.
  destruct (i mod 500 =? 499); cbn; repeat split; auto.
Qed.

(** ** Concatenation, order and rounding *)







(** ** Shapes of the convolutional network *)

Lemma conv_out_3 (x : nat) :
  Shapes.conv_out x 3 0 = if 3 <=? x then Some (x - 2) else None.
Proof.
  unfold Shapes.conv_out. replace (x + 2 * 0) with x by lia.
  change (0 <? 3) with true. cbn [andb].
  destruct (Nat.leb_spec 3 x); [f_equal; lia | reflexivity].
Qed.

(** An optional shape that is [s] exactly when [b] holds, and no other
    shape. *)
Lemma shape_cases (o : option (list nat)) (b : bool) (s : list nat) :
  (o = Some s <-> b = true) -> (forall s', o = Some s' -> s' = s) ->
  o = if b then Some s else None.
Proof.
  intros [A B] H. destruct o as [s'|], b; auto.
  rewrite (H s' eq_refl) in A. discriminate (A eq_refl).
Qed.

(** Which batches the stack of [ConvNet] takes: one channel, and maps of
    576 = 24 * 24 pixels left after the two convolutions have each taken
    two off both sides; any other batch of four dimensions is a shape
    error. *)
Lemma ConvNet_stack_shape (n c h w : nat) :
  Shapes.forward_shape CNN.layers [n; c; h; w]
  = if (c =? 1) && (5 <=? h) && (5 <=? w) && ((h - 4) * (w - 4) =? 576)
    then Some [n; 10] else None.
Proof.
  apply shape_cases.
  - rewrite !andb_true_iff, Nat.eqb_eq, !Nat.leb_le, Nat.eqb_eq.
    unfold Shapes.forward_shape, CNN.layers.
    cbn [Shapes.summary Shapes.layer_shape].
    destruct (Nat.eqb_spec c 1) as [->|Hc]; [|split; [discriminate | lia]].
    unfold Shapes.window at 1. rewrite !conv_out_3.
    destruct (Nat.leb_spec 3 h) as [Hh|Hh]; [|split; [discriminate | lia]].
    destruct (Nat.leb_spec 3 w) as [Hw|Hw]; [|split; [discriminate | lia]].
    cbn [Nat.eqb]. unfold Shapes.window at 1. rewrite !conv_out_3.
    destruct (Nat.leb_spec 3 (h - 2)) as [Hh'|Hh']; [|split; [discriminate | lia]].
    destruct (Nat.leb_spec 3 (w - 2)) as [Hw'|Hw']; [|split; [discriminate | lia]].
    cbn [rev app fold_right].
    destruct (Nat.eqb_spec (5 * ((h - 2 - 2) * ((w - 2 - 2) * 1))) (24 * 24 * 5))
      as [E|E].
    + split; [intros _|reflexivity]. repeat split; try lia.
    + split; [discriminate|]. intros (((_ & _) & _) & F). exfalso. apply E.
      replace (h - 2 - 2) with (h - 4) by lia.
      replace (w - 2 - 2) with (w - 4) by lia. lia.
  - intro s'. unfold Shapes.forward_shape, CNN.layers.
    cbn [Shapes.summary Shapes.layer_shape].
    destruct (c =? 1); [|discriminate].
    unfold Shapes.window at 1.
    destruct (Shapes.conv_out h 3 0) as [h1|]; [|discriminate].
    destruct (Shapes.conv_out w 3 0) as [w1|]; [|discriminate].
    cbn [Nat.eqb]. unfold Shapes.window at 1.
    destruct (Shapes.conv_out h1 3 0) as [h2|]; [|discriminate].
    destruct (Shapes.conv_out w1 3 0) as [w2|]; [|discriminate].
    cbn [rev app fold_right].
    destruct (_ =? _); [|discriminate].
    intro E. injection E as <-. reflexivity.
Qed.

Section ForwardShapes.
Context {Model : Type} {T : Torch Model} {S : ShapeChecked T}.

(** What a call of a module hands back has the shape that the rules give
    for its stack, as a stored value and as a function of the parameters. *)
Lemma call_shape (layers : list Layer) (x : Input) (w : World) :
  output_shape (value (result (call layers x w)))
  = Shapes.forward_shape layers (input_shape x) /\
  forall m : Model,
    output_shape (graph (result (call layers x w)) m)
    = Shapes.forward_shape layers (input_shape x).
Proof. split; [|intro m]; apply Sequential_shape. Qed.
End ForwardShapes.

(** C8.  On a tensor library whose forward pass follows the shape rules,
    [ConvNet.forward] raises no shape error on a batch of one-channel
    28x28 images, whatever the batch size, the parameters and the state of
    the run: the layers up to the first convolution give 26x26 maps (10
    channels), up to the second 24x24 maps (5 channels), up to [Flatten],
    the fifth layer, 24*24*5 = 2880 features, which is what the first
    linear layer takes, and what [forward] returns has 10 values per
    sample. *)
Theorem ConvNet_forward_shapes :
  forall (T : Torch CNN.ConvNet) (S : ShapeChecked T)
         (x : Input) (w : World) (n : nat),
    input_shape x = [n; 1; 28; 28] ->
    let shapes :=
      [ [n; 10; 26; 26]; [n; 10; 26; 26];
        [n; 5; 24; 24]; [n; 5; 24; 24];
        [n; 2880];
        [n; 64]; [n; 64];
        [n; 32]; [n; 32];
        [n; 10] ] in
    Shapes.summary CNN.layers (input_shape x) = Some shapes /\
    (forall (k : nat) (s : list nat),
        nth_error shapes k = Some s ->
        forall (m : CNN.ConvNet) (g : Rng),
          output_shape (fst (Sequential (firstn (k + 1) CNN.layers) m g x))
          = Some s) /\
    nth_error CNN.layers 4 = Some Flatten /\
    nth_error CNN.layers 5 = Some (Linear 2880 64) /\
    output_shape (value (result (CNN.forward x w))) = Some [n; 10] /\
    (forall m : CNN.ConvNet,
        output_shape (graph (result (CNN.forward x w)) m) = Some [n; 10]) /\
    trace (CNN.forward x w) = [Forward].
Proof.
  intros T S x w n H shapes.
  destruct (call_shape CNN.layers x w) as [A B].
  unfold CNN.forward. rewrite A. split; [rewrite H; reflexivity|].
  split.
  { intros k s E m g. rewrite Sequential_shape, H.
    do 10 (destruct k as [|k]; [injection E as <-; reflexivity|]).
    destruct k; discriminate E. }
  split; [reflexivity|]. split; [reflexivity|].
  split; [rewrite H; reflexivity|].
  split; [|reflexivity]. intro m. rewrite B, H. reflexivity.
Qed.

Lemma ConvNet_forward_shapes_witness :
  let T := Toy.shapes Toy.zero_convnet in
  let S := Toy.shapes_checked Toy.zero_convnet in
  @input_shape _ T S [64; 1; 28; 28] = [64; 1; 28; 28] /\
  @output_shape _ T S
    (value (result (@CNN.forward T [64; 1; 28; 28]
                                 (Toy.shapes_world Toy.zero_convnet))))
  = Some [64; 10].
Proof.
  intros T S. split; [reflexivity|].
  exact (proj1 (proj2 (proj2 (proj2 (proj2
           (@ConvNet_forward_shapes
              T S [64; 1; 28; 28] (Toy.shapes_world Toy.zero_convnet) 64
              eq_refl)))))).
Defined.

(** ** Loops *)

Lemma flat_map_const_repeat {A B : Type} (c : list B) (xs : list A) :
  flat_map (fun _ => c) xs = concat (repeat c (length xs)).
Proof. induction xs as [|x xs IH]; simpl; congruence. Qed.

Lemma last_cons {A : Type} (xs : list A) (x a : A) :
  last (x :: xs) a = last xs x.
Proof.
  revert x a; induction xs as [|y xs IH]; intros x a; [reflexivity|].
  change (last (x :: y :: xs) a) with (last (y :: xs) a).
  now rewrite (IH y a), (IH y x).
Qed.

Lemma fold_left_last (xs : list Q) (a : Q) :
  fold_left (fun _ v => v) xs a = last xs a.
Proof.
  revert a; induction xs as [|x xs IH]; intro a; [reflexivity|].
  cbn [fold_left]. now rewrite IH, last_cons.
Qed.

Lemma mod_500 (q r : nat) : r < 500 -> (q * 500 + r) mod 500 = r.
Proof.
  intro H. rewrite Nat.add_comm, Nat.Div0.mod_add. now apply Nat.mod_small.
Qed.

Lemma block_0_full (pre items : list Q) (v : Q) :
  length pre = 499 -> block 0 (pre ++ v :: items) = pre ++ [v].
Proof.
  intro H. unfold block. rewrite Nat.mul_0_l. cbn [skipn].
  change (v :: items) with ([v] ++ items). rewrite app_assoc.
  rewrite firstn_app.
  replace (500 - length (pre ++ [v])) with 0
    by (rewrite length_app; cbn [length]; lia).
  rewrite firstn_O, app_nil_r. apply firstn_all2.
  rewrite length_app; cbn [length]; lia.
Qed.

Lemma block_S_full (pre items : list Q) (v : Q) (k : nat) :
  length pre = 499 -> block (S k) (pre ++ v :: items) = block k items.
Proof.
  intro H. unfold block. f_equal.
  change (v :: items) with ([v] ++ items). rewrite app_assoc.
  rewrite skipn_app.
  replace (S k * 500 - length (pre ++ [v])) with (k * 500)
    by (rewrite length_app; simpl length; lia).
  rewrite skipn_all2 by (rewrite length_app; simpl length; lia).
  reflexivity.
Qed.

Section Running.
Context {A : Type} (f : A -> Q -> A) (out : A -> Q) (a0 : A).

(** The figures of a running loop, block by block: the loop is at
    mini-batch [q * 500 + length pre], and [pre] are the values folded
    into the accumulator since it was last restarted. *)
Lemma running_from (items pre : list Q) (q : nat) :
  length pre < 500 ->
  running f out a0 (q * 500 + length pre) (fold_left f pre a0) items
  = map (fun k => ((q + k + 1) * 500,
                   out (fold_left f (block k (pre ++ items)) a0)))
        (seq 0 ((length pre + length items) / 500)).
Proof.
  revert pre q. induction items as [|v items IH]; intros pre q Hpre.
  - cbn [running length]. rewrite Nat.add_0_r, Nat.div_small by assumption.
    reflexivity.
  - cbn [running]. rewrite (mod_500 q Hpre).
    destruct (Nat.eqb_spec (length pre) 499) as [E|E].
    + replace (S (q * 500 + length pre)) with ((q + 1) * 500 + length (@nil Q))
        by (simpl length; lia).
      change a0 with (fold_left f [] a0) at 2.
      rewrite IH by (cbn [length]; lia).
      replace ((length pre + length (v :: items)) / 500)
        with (S (length items / 500)).
      2:{ simpl length. replace (length pre + S (length items))
            with (length items + 1 * 500) by lia.
          rewrite Nat.div_add by lia. lia. }
      cbn [seq map]. f_equal.
      * f_equal; [lia|]. rewrite (block_0_full pre items v E).
        rewrite fold_left_app. reflexivity.
      * rewrite <- seq_shift, map_map. apply map_ext. intro k.
        rewrite (block_S_full pre items v k E). simpl length. cbn [app].
        f_equal. lia.
    + replace (S (q * 500 + length pre)) with (q * 500 + length (pre ++ [v]))
        by (rewrite length_app; simpl length; lia).
      replace (f (fold_left f pre a0) v) with (fold_left f (pre ++ [v]) a0)
        by (rewrite fold_left_app; reflexivity).
      rewrite IH by (rewrite length_app; simpl length; lia).
      rewrite <- app_assoc. cbn [app].
      replace (length (pre ++ [v]) + length items)
        with (length pre + length (v :: items))
        by (rewrite length_app; simpl length; lia).
      reflexivity.
Qed.

Lemma running_blocks (items : list Q) :
  running f out a0 0 a0 items
  = map (fun k => ((k + 1) * 500, out (fold_left f (block k items) a0)))
        (seq 0 (length items / 500)).
Proof.
  change 0 with (0 * 500 + length (@nil Q)) at 1.
  change a0 with (fold_left f [] a0) at 2.
  rewrite running_from by (cbn [length]; lia). reflexivity.
Qed.
End Running.

Lemma running_mean (items : list Q) :
  running Qplus (fun a => a / 500)%Q 0%Q 0 0%Q items = mean_of_blocks items.
Proof. rewrite running_blocks. reflexivity. Qed.

Lemma running_last (items : list Q) :
  running (fun _ v => v) (fun a => a) 0%Q 0 0%Q items = last_of_blocks items.
Proof.
  rewrite running_blocks. apply map_ext. intro k.
  now rewrite fold_left_last.
Qed.

Section LoopFacts.
Context {Model : Type} {T : Torch Model}.

Lemma trace_bind {A B : Type} (m : M A) (k : A -> M B) (w : World) :
  trace (bind m k w) = trace (m w) ++ trace (k (result (m w)) (world (m w))).
Proof. reflexivity. Qed.

Lemma for_enumerate_cons {B St : Type} (body : nat -> B -> St -> M St)
      (i : nat) (x : B) (xs : list B) (s : St) (w : World) :
  trace (for_enumerate body i (x :: xs) s w)
  = trace (body i x s w)
    ++ trace (for_enumerate body (S i) xs
                            (result (body i x s w)) (world (body i x s w))).
Proof. reflexivity. Qed.

Lemma for_enumerate_calls {B St : Type} (body : nat -> B -> St -> M St) :
  (forall i x s w, calls (trace (body i x s w)) = five_steps) ->
  forall xs i s w,
    calls (trace (for_enumerate body i xs s w))
    = flat_map (fun _ => five_steps) xs.
Proof.
  intros H xs. induction xs as [|x xs IH]; intros i s w; [reflexivity|].
  rewrite for_enumerate_cons. unfold calls at 1. rewrite flat_map_app.
  fold (calls (trace (body i x s w))). rewrite H.
  cbn [flat_map]. f_equal. apply IH.
Qed.

Lemma for_enumerate_outline {B St : Type} (body : nat -> B -> St -> M St) :
  (forall i x s w, outline (trace (body i x s w)) = iteration_outline i) ->
  forall xs i s w,
    outline (trace (for_enumerate body i xs s w))
    = flat_map iteration_outline (seq i (length xs)).
Proof.
  intros H xs. induction xs as [|x xs IH]; intros i s w; [reflexivity|].
  rewrite for_enumerate_cons. unfold outline at 1. rewrite map_app.
  fold (outline (trace (body i x s w))). rewrite H.
  cbn [length seq flat_map]. f_equal. apply IH.
Qed.

Lemma for_enumerate_figures {B St A : Type} (body : nat -> B -> St -> M St)
      (holds : St -> A -> Prop) (f : A -> Q -> A) (out : A -> Q) (a0 : A) :
  (forall i x s w a,
      holds s a ->
      exists v,
        backpropagated (trace (body i x s w)) = [v] /\
        loss_figures (trace (body i x s w))
        = (if i mod 500 =? 499 then [(i + 1, out (f a v))] else []) /\
        holds (result (body i x s w))
              (if i mod 500 =? 499 then a0 else f a v)) ->
  forall xs i s w a,
    holds s a ->
    loss_figures (trace (for_enumerate body i xs s w))
    = running f out a0 i a
              (backpropagated (trace (for_enumerate body i xs s w))).
Proof.
  intros H xs. induction xs as [|x xs IH]; intros i s w a Hs; [reflexivity|].
  rewrite for_enumerate_cons.
  destruct (H i x s w a Hs) as (v & Hb & Hf & Hr).
  unfold loss_figures at 1. unfold backpropagated at 1.
  rewrite !flat_map_app.
  fold (loss_figures (trace (body i x s w))).
  fold (backpropagated (trace (body i x s w))).
  rewrite Hb, Hf. cbn [app running].
  destruct (i mod 500 =? 499); cbn [app]; [f_equal|]; apply IH; exact Hr.
Qed.

Lemma for_enumerate_items {B St : Type} (body : nat -> B -> St -> M St) :
  (forall i x s w, length (backpropagated (trace (body i x s w))) = 1) ->
  forall xs i s w,
    length (backpropagated (trace (for_enumerate body i xs s w))) = length xs.
Proof.
  intros H xs. induction xs as [|x xs IH]; intros i s w; [reflexivity|].
  rewrite for_enumerate_cons. unfold backpropagated at 1.
  rewrite flat_map_app, length_app.
  fold (backpropagated (trace (body i x s w))). rewrite H.
  cbn [length Nat.add]. f_equal. apply IH.
Qed.

Lemma for_each_trace (body : nat -> M unit) (xs : list nat) (w : World) :
  trace (for_each body xs w) = concat (epoch_traces body xs w).
Proof.
  revert w; induction xs as [|x xs IH]; intro w; [reflexivity|].
  cbn [for_each epoch_traces concat]. rewrite trace_bind. f_equal. apply IH.
Qed.

Lemma epoch_traces_Forall (P : list Event -> Prop) (body : nat -> M unit) :
  (forall e w, P (trace (body e w))) ->
  forall xs w, Forall P (epoch_traces body xs w).
Proof.
  intros H xs. induction xs as [|x xs IH]; intro w; constructor; auto.
Qed.
End LoopFacts.

Lemma loss_figures_concat (trs : list (list Event)) :
  loss_figures (concat trs) = flat_map loss_figures trs.
Proof.
  induction trs as [|tr trs IH]; [reflexivity|].
  cbn [concat flat_map]. unfold loss_figures at 1. rewrite flat_map_app.
  f_equal. exact IH.
Qed.

Lemma calls_concat (trs : list (list Event)) :
  calls (concat trs) = flat_map calls trs.
Proof.
  induction trs as [|tr trs IH]; [reflexivity|].
  cbn [concat flat_map]. unfold calls at 1. rewrite flat_map_app.
  f_equal. exact IH.
Qed.

Lemma flat_map_Forall {A B : Type} (f g : A -> list B) (P : A -> Prop)
      (xs : list A) :
  (forall x, P x -> f x = g x) -> Forall P xs -> flat_map f xs = flat_map g xs.
Proof.
  intros H HP. induction HP as [|x xs Hx _ IH]; [reflexivity|].
  cbn [flat_map]. now rewrite (H x Hx), IH.
Qed.

Lemma five_steps_blocks (trs : list (list Event)) :
  Forall (fun tr => exists n, calls tr = concat (repeat five_steps n)) trs ->
  exists n, flat_map calls trs = concat (repeat five_steps n).
Proof.
  induction 1 as [|tr trs [n Hn] _ [m Hm]].
  - now exists 0.
  - exists (n + m). cbn [flat_map]. rewrite Hn, Hm, repeat_app, concat_app.
    reflexivity.
Qed.

(** ** One iteration of each notebook *)

Ltac by_cases_on_print body i :=
  unfold body, iteration_outline;
  destruct (i mod 500 =? 499); cbn;
  try reflexivity.

Section IterationsMLP.
Context {T : Torch MLP}.

Lemma L1_iteration_calls i x s w :
  calls (trace (L1.iteration i x s w)) = five_steps.
Proof. by_cases_on_print (@L1.iteration) i. Qed.

Lemma L2_iteration_calls i x s w :
  calls (trace (L2.iteration i x s w)) = five_steps.
Proof. by_cases_on_print (@L2.iteration) i. Qed.

Lemma ElasticNet_iteration_calls i x s w :
  calls (trace (ElasticNet.iteration i x s w)) = five_steps.
Proof. by_cases_on_print (@ElasticNet.iteration) i. Qed.

Lemma Dropout_iteration_calls i x s w :
  calls (trace (DropoutNb.iteration i x s w)) = five_steps.
Proof. by_cases_on_print (@DropoutNb.iteration) i. Qed.

Lemma L1_iteration_outline i x s w :
  outline (trace (L1.iteration i x s w)) = iteration_outline i.
Proof. by_cases_on_print (@L1.iteration) i. Qed.

Lemma L2_iteration_outline i x s w :
  outline (trace (L2.iteration i x s w)) = iteration_outline i.
Proof. by_cases_on_print (@L2.iteration) i. Qed.

Lemma ElasticNet_iteration_outline i x s w :
  outline (trace (ElasticNet.iteration i x s w)) = iteration_outline i.
Proof. by_cases_on_print (@ElasticNet.iteration) i. Qed.

Lemma Dropout_iteration_outline i x s w :
  outline (trace (DropoutNb.iteration i x s w)) = iteration_outline i.
Proof. by_cases_on_print (@DropoutNb.iteration) i. Qed.

(** The three penalty notebooks report the loss of the mini-batch at hand. *)
Lemma L1_iteration_figure i x s w :
  exists v,
    backpropagated (trace (L1.iteration i x s w)) = [v] /\
    loss_figures (trace (L1.iteration i x s w))
    = (if i mod 500 =? 499 then [(i + 1, v)] else []).
Proof. by_cases_on_print (@L1.iteration) i; eexists; split; reflexivity. Qed.

Lemma L2_iteration_figure i x s w :
  exists v,
    backpropagated (trace (L2.iteration i x s w)) = [v] /\
    loss_figures (trace (L2.iteration i x s w))
    = (if i mod 500 =? 499 then [(i + 1, v)] else []).
Proof. by_cases_on_print (@L2.iteration) i; eexists; split; reflexivity. Qed.

Lemma ElasticNet_iteration_figure i x s w :
  exists v,
    backpropagated (trace (ElasticNet.iteration i x s w)) = [v] /\
    loss_figures (trace (ElasticNet.iteration i x s w))
    = (if i mod 500 =? 499 then [(i + 1, v)] else []).
Proof.
  by_cases_on_print (@ElasticNet.iteration) i; eexists; split; reflexivity.
Qed.

(** The dropout notebook adds the loss to [current_loss], reports
    [current_loss / 500] when the line is due and then restarts from zero. *)
Lemma Dropout_iteration_figure i x current_loss w :
  exists v,
    backpropagated (trace (DropoutNb.iteration i x current_loss w)) = [v] /\
    loss_figures (trace (DropoutNb.iteration i x current_loss w))
    = (if i mod 500 =? 499
       then [(i + 1, ((current_loss + v) / 500)%Q)] else []) /\
    result (DropoutNb.iteration i x current_loss w)
    = (if i mod 500 =? 499 then 0%Q else (current_loss + v)%Q).
Proof.
  by_cases_on_print (@DropoutNb.iteration) i; eexists; repeat split.
Qed.
End IterationsMLP.

Section IterationsCNN.
Context {T : Torch CNN.ConvNet}.

Lemma CNN_iteration_calls i x s w :
  calls (trace (CNN.iteration i x s w)) = five_steps.
Proof. by_cases_on_print (@CNN.iteration) i. Qed.

Lemma CNN_iteration_outline i x s w :
  outline (trace (CNN.iteration i x s w)) = iteration_outline i.
Proof. by_cases_on_print (@CNN.iteration) i. Qed.

Lemma CNN_iteration_figure i x current_loss w :
  exists v,
    backpropagated (trace (CNN.iteration i x current_loss w)) = [v] /\
    loss_figures (trace (CNN.iteration i x current_loss w))
    = (if i mod 500 =? 499
       then [(i + 1, ((current_loss + v) / 500)%Q)] else []) /\
    result (CNN.iteration i x current_loss w)
    = (if i mod 500 =? 499 then 0%Q else (current_loss + v)%Q).
Proof.
  by_cases_on_print (@CNN.iteration) i; eexists; repeat split.
Qed.
End IterationsCNN.

(** ** Whole loops *)

Section Reports.
Context {Model : Type} {T : Torch Model} {B : Type}.

Lemma reports_last (body : nat -> B -> unit -> M unit) :
  (forall i x s w,
      exists v,
        backpropagated (trace (body i x s w)) = [v] /\
        loss_figures (trace (body i x s w))
        = (if i mod 500 =? 499 then [(i + 1, v)] else [])) ->
  forall xs w,
    loss_figures (trace (for_enumerate body 0 xs tt w))
    = last_of_blocks (backpropagated (trace (for_enumerate body 0 xs tt w))).
Proof.
  intros H xs w. rewrite <- running_last.
  apply (for_enumerate_figures body (fun _ _ => True)); [|exact I].
  intros i x s w' a _. destruct (H i x s w') as (v & Hb & Hf).
  exists v. repeat split; assumption.
Qed.

Lemma reports_mean (body : nat -> B -> Q -> M Q) :
  (forall i x c w,
      exists v,
        backpropagated (trace (body i x c w)) = [v] /\
        loss_figures (trace (body i x c w))
        = (if i mod 500 =? 499 then [(i + 1, ((c + v) / 500)%Q)] else []) /\
        result (body i x c w)
        = (if i mod 500 =? 499 then 0%Q else (c + v)%Q)) ->
  forall xs w,
    loss_figures (trace (for_enumerate body 0 xs 0%Q w))
    = mean_of_blocks (backpropagated (trace (for_enumerate body 0 xs 0%Q w))).
Proof.
  intros H xs w. rewrite <- running_mean.
  apply (for_enumerate_figures body (@eq Q)); [|reflexivity].
  intros i x s w' a <-. destruct (H i x s w') as (v & Hb & Hf & Hr).
  exists v. repeat split; assumption.
Qed.

Lemma loop_calls_blocks {St : Type} (body : nat -> B -> St -> M St) :
  (forall i x s w, calls (trace (body i x s w)) = five_steps) ->
  forall (l : Line) xs s w,
  exists n,
    calls (PrintLine l :: trace (for_enumerate body 0 xs s w))
    = concat (repeat five_steps n).
Proof.
  intros H l xs s w. exists (length xs).
  change (calls (PrintLine l :: trace (for_enumerate body 0 xs s w)))
    with (calls (trace (for_enumerate body 0 xs s w))).
  rewrite (for_enumerate_calls body H). apply flat_map_const_repeat.
Qed.

Lemma main_calls (epoch : nat -> M unit) (epochs : list nat) (w : World) :
  (forall e w, exists n, calls (trace (epoch e w)) = concat (repeat five_steps n)) ->
  exists n,
    calls (trace ((for_each epoch epochs ;; print TrainingFinished) w))
    = concat (repeat five_steps n).
Proof.
  intro H. rewrite trace_bind, for_each_trace.
  unfold calls at 1. rewrite flat_map_app.
  fold (calls (concat (epoch_traces epoch epochs w))).
  cbn [trace print snd flat_map app]. rewrite app_nil_r, calls_concat.
  apply five_steps_blocks, epoch_traces_Forall. exact H.
Qed.

Lemma main_figures (P : list Event -> list (nat * Q))
      (epoch : nat -> M unit) (epochs : list nat) (w : World) :
  (forall e w, loss_figures (trace (epoch e w)) = P (trace (epoch e w))) ->
  loss_figures (trace ((for_each epoch epochs ;; print TrainingFinished) w))
  = flat_map P (epoch_traces epoch epochs w).
Proof.
  intro H. rewrite trace_bind, for_each_trace.
  unfold loss_figures at 1. rewrite flat_map_app.
  fold (loss_figures (concat (epoch_traces epoch epochs w))).
  cbn [trace print snd flat_map app]. rewrite app_nil_r, loss_figures_concat.
  apply flat_map_Forall
    with (P := fun tr => loss_figures tr = P tr); [auto|].
  apply epoch_traces_Forall. exact H.
Qed.
End Reports.

Section EpochsMLP.
Context {T : Torch MLP}.

Lemma L1_epoch_trace e w :
  trace (L1.epoch e w)
  = PrintLine (StartingEpoch (e + 1))
    :: trace (for_enumerate L1.iteration 0 (fst (DataLoader L1.trainloader (rng w)))
                            tt (world (batches L1.trainloader w))).
Proof. reflexivity. Qed.

Lemma L2_epoch_trace e w :
  trace (L2.epoch e w)
  = PrintLine (StartingEpoch (e + 1))
    :: trace (for_enumerate L2.iteration 0 (fst (DataLoader L2.trainloader (rng w)))
                            tt (world (batches L2.trainloader w))).
Proof. reflexivity. Qed.

Lemma ElasticNet_epoch_trace e w :
  trace (ElasticNet.epoch e w)
  = PrintLine (StartingEpoch (e + 1))
    :: trace (for_enumerate ElasticNet.iteration 0
                            (fst (DataLoader ElasticNet.trainloader (rng w)))
                            tt (world (batches ElasticNet.trainloader w))).
Proof. reflexivity. Qed.

Lemma Dropout_epoch_trace e w :
  trace (DropoutNb.epoch e w)
  = PrintLine (StartingEpoch (e + 1))
    :: trace (for_enumerate DropoutNb.iteration 0
                            (fst (DataLoader DropoutNb.trainloader (rng w)))
                            0%Q (world (batches DropoutNb.trainloader w))).
Proof. unfold DropoutNb.epoch. rewrite !trace_bind. cbn [trace print batches ret snd app].
  now rewrite app_nil_r. Qed.

Lemma L1_loop_items xs i s w :
  length (backpropagated (trace (for_enumerate L1.iteration i xs s w)))
  = length xs.
Proof.
  apply for_enumerate_items. intros j x s' w'.
  destruct (L1_iteration_figure j x s' w') as (v & Hb & _). now rewrite Hb.
Qed.

Lemma L2_loop_items xs i s w :
  length (backpropagated (trace (for_enumerate L2.iteration i xs s w)))
  = length xs.
Proof.
  apply for_enumerate_items. intros j x s' w'.
  destruct (L2_iteration_figure j x s' w') as (v & Hb & _). now rewrite Hb.
Qed.

Lemma ElasticNet_loop_items xs i s w :
  length (backpropagated (trace (for_enumerate ElasticNet.iteration i xs s w)))
  = length xs.
Proof.
  apply for_enumerate_items. intros j x s' w'.
  destruct (ElasticNet_iteration_figure j x s' w') as (v & Hb & _).
  now rewrite Hb.
Qed.

Lemma Dropout_loop_items xs i s w :
  length (backpropagated (trace (for_enumerate DropoutNb.iteration i xs s w)))
  = length xs.
Proof.
  apply for_enumerate_items. intros j x s' w'.
  destruct (Dropout_iteration_figure j x s' w') as (v & Hb & _).
  now rewrite Hb.
Qed.

Lemma L1_epoch_figures e w :
  loss_figures (trace (L1.epoch e w))
  = last_of_blocks (backpropagated (trace (L1.epoch e w))).
Proof. rewrite L1_epoch_trace. apply (reports_last _ L1_iteration_figure). Qed.

Lemma L2_epoch_figures e w :
  loss_figures (trace (L2.epoch e w))
  = last_of_blocks (backpropagated (trace (L2.epoch e w))).
Proof. rewrite L2_epoch_trace. apply (reports_last _ L2_iteration_figure). Qed.

Lemma ElasticNet_epoch_figures e w :
  loss_figures (trace (ElasticNet.epoch e w))
  = last_of_blocks (backpropagated (trace (ElasticNet.epoch e w))).
Proof.
  rewrite ElasticNet_epoch_trace.
  apply (reports_last _ ElasticNet_iteration_figure).
Qed.

Lemma Dropout_epoch_figures e w :
  loss_figures (trace (DropoutNb.epoch e w))
  = mean_of_blocks (backpropagated (trace (DropoutNb.epoch e w))).
Proof.
  rewrite Dropout_epoch_trace. apply (reports_mean _ Dropout_iteration_figure).
Qed.
End EpochsMLP.

Section EpochsCNN.
Context {T : Torch CNN.ConvNet}.

Lemma CNN_epoch_trace e w :
  trace (CNN.epoch e w)
  = PrintLine (StartingEpoch (e + 1))
    :: trace (for_enumerate CNN.iteration 0
                            (fst (DataLoader CNN.trainloader (rng w)))
                            0%Q (world (batches CNN.trainloader w))).
Proof. unfold CNN.epoch. rewrite !trace_bind. cbn [trace print batches ret snd app].
  now rewrite app_nil_r. Qed.

Lemma CNN_loop_items xs i s w :
  length (backpropagated (trace (for_enumerate CNN.iteration i xs s w)))
  = length xs.
Proof.
  apply for_enumerate_items. intros j x s' w'.
  destruct (CNN_iteration_figure j x s' w') as (v & Hb & _). now rewrite Hb.
Qed.

Lemma CNN_epoch_figures e w :
  loss_figures (trace (CNN.epoch e w))
  = mean_of_blocks (backpropagated (trace (CNN.epoch e w))).
Proof.
  rewrite CNN_epoch_trace. apply (reports_mean _ CNN_iteration_figure).
Qed.
End EpochsCNN.

(** ** One iteration, in full *)

Section IterationInFull.
Context {T : Torch MLP}.

Lemma L1_iteration_unfold i data s w :
  let loss := fun m =>
    (cross_entropy L1.layers w data m
     + 1 * L1.compute_l1_loss (flat_parameters m))%Q in
  L1.iteration i data s w
  = (tt, updated L1.layers L1.optimizer loss w data,
     [ZeroGrad; Forward; ComputeLoss (cross_entropy L1.layers w data (net w));
      Backward (loss (net w)); OptimizerStep]
     ++ (if i mod 500 =? 499
         then [PrintLine
                 (LossAfterMiniBatch
                    (i + 1) 5 (loss (net w))
                    [("L1"%string,
                      (1 * L1.compute_l1_loss (flat_parameters (net w)))%Q)])]
         else [])).
Proof.
  intro loss. unfold L1.iteration. destruct (i mod 500 =? 499); reflexivity.
Qed.

Lemma L2_iteration_unfold i data s w :
  let loss := fun m =>
    (cross_entropy L2.layers w data m
     + 1 * L2.compute_l2_loss (flat_parameters m))%Q in
  L2.iteration i data s w
  = (tt, updated L2.layers L2.optimizer loss w data,
     [ZeroGrad; Forward; ComputeLoss (cross_entropy L2.layers w data (net w));
      Backward (loss (net w)); OptimizerStep]
     ++ (if i mod 500 =? 499
         then [PrintLine
                 (LossAfterMiniBatch
                    (i + 1) 5 (loss (net w))
                    [("l2"%string,
                      (1 * L2.compute_l2_loss (flat_parameters (net w)))%Q)])]
         else [])).
Proof.
  intro loss. unfold L2.iteration. destruct (i mod 500 =? 499); reflexivity.
Qed.

Lemma ElasticNet_iteration_unfold i data s w :
  let l1 := fun m =>
    ((3 # 10) * ElasticNet.compute_l1_loss (flat_parameters m))%Q in
  let l2 := fun m =>
    ((7 # 10) * ElasticNet.compute_l2_loss (flat_parameters m))%Q in
  let loss := fun m =>
    (cross_entropy ElasticNet.layers w data m + l1 m + l2 m)%Q in
  ElasticNet.iteration i data s w
  = (tt, updated ElasticNet.layers ElasticNet.optimizer loss w data,
     [ZeroGrad; Forward;
      ComputeLoss (cross_entropy ElasticNet.layers w data (net w));
      Backward (loss (net w)); OptimizerStep]
     ++ (if i mod 500 =? 499
         then [PrintLine
                 (LossAfterMiniBatch
                    (i + 1) 5 (loss (net w))
                    [("L1"%string, l1 (net w)); ("L2"%string, l2 (net w))])]
         else [])).
Proof.
  intros l1 l2 loss. unfold ElasticNet.iteration.
  destruct (i mod 500 =? 499); reflexivity.
Qed.

Lemma Dropout_iteration_unfold i data current_loss w :
  let loss := cross_entropy DropoutNb.layers w data in
  DropoutNb.iteration i data current_loss w
  = ((if i mod 500 =? 499 then 0 else current_loss + loss (net w))%Q,
     updated DropoutNb.layers DropoutNb.optimizer loss w data,
     [ZeroGrad; Forward; ComputeLoss (loss (net w));
      Backward (loss (net w)); OptimizerStep]
     ++ (if i mod 500 =? 499
         then [PrintLine
                 (LossAfterMiniBatch
                    (i + 1) 3 ((current_loss + loss (net w)) / 500)%Q [])]
         else [])).
Proof.
  intro loss. unfold DropoutNb.iteration.
  destruct (i mod 500 =? 499); reflexivity.
Qed.
End IterationInFull.

Section IterationInFullCNN.
Context {T : Torch CNN.ConvNet}.

Lemma CNN_iteration_unfold i data current_loss w :
  let loss := cross_entropy CNN.layers w data in
  CNN.iteration i data current_loss w
  = ((if i mod 500 =? 499 then 0 else current_loss + loss (net w))%Q,
     updated CNN.layers CNN.optimizer loss w data,
     [ZeroGrad; Forward; ComputeLoss (loss (net w));
      Backward (loss (net w)); OptimizerStep]
     ++ (if i mod 500 =? 499
         then [PrintLine
                 (LossAfterMiniBatch
                    (i + 1) 6 ((current_loss + loss (net w)) / 500)%Q [])]
         else [])).
Proof.
  intro loss. unfold CNN.iteration.
  destruct (i mod 500 =? 499); reflexivity.
Qed.
End IterationInFullCNN.

(** ** The training loops *)

(** C3.  In every notebook one mini-batch iteration is, in this order and
    with nothing else in between: [zero_grad], the forward pass of the
    inputs through the notebook's stack, the loss (the cross-entropy of the
    outputs, to which the penalty notebooks add their penalty on the
    current parameters), [backward] on that loss, and the optimiser step;
    then the statistics line if one is due.  The world it leaves is the one
    these four state changes produce in that order: gradients of that loss
    alone (the buffers having been cleared), parameters and optimiser state
    stepped from the parameters and state before with those gradients, the
    random generator as the forward pass left it.  A loop, and a whole run,
    make these calls in whole groups of five and no other. *)
Theorem five_steps_in_order :
  forall (T : Torch MLP) (T' : Torch CNN.ConvNet),
    (forall i data s w,
        let loss := fun m =>
          (cross_entropy L1.layers w data m
           + 1 * L1.compute_l1_loss (flat_parameters m))%Q in
        L1.iteration i data s w
        = (tt, updated L1.layers L1.optimizer loss w data,
           [ZeroGrad; Forward;
            ComputeLoss (cross_entropy L1.layers w data (net w));
            Backward (loss (net w)); OptimizerStep]
           ++ (if i mod 500 =? 499
               then [PrintLine
                       (LossAfterMiniBatch
                          (i + 1) 5 (loss (net w))
                          [("L1"%string,
                            (1 * L1.compute_l1_loss
                                   (flat_parameters (net w)))%Q)])]
               else []))) /\
    (forall i data s w,
        let loss := fun m =>
          (cross_entropy L2.layers w data m
           + 1 * L2.compute_l2_loss (flat_parameters m))%Q in
        L2.iteration i data s w
        = (tt, updated L2.layers L2.optimizer loss w data,
           [ZeroGrad; Forward;
            ComputeLoss (cross_entropy L2.layers w data (net w));
            Backward (loss (net w)); OptimizerStep]
           ++ (if i mod 500 =? 499
               then [PrintLine
                       (LossAfterMiniBatch
                          (i + 1) 5 (loss (net w))
                          [("l2"%string,
                            (1 * L2.compute_l2_loss
                                   (flat_parameters (net w)))%Q)])]
               else []))) /\
    (forall i data s w,
        let l1 := fun m =>
          ((3 # 10) * ElasticNet.compute_l1_loss (flat_parameters m))%Q in
        let l2 := fun m =>
          ((7 # 10) * ElasticNet.compute_l2_loss (flat_parameters m))%Q in
        let loss := fun m =>
          (cross_entropy ElasticNet.layers w data m + l1 m + l2 m)%Q in
        ElasticNet.iteration i data s w
        = (tt, updated ElasticNet.layers ElasticNet.optimizer loss w data,
           [ZeroGrad; Forward;
            ComputeLoss (cross_entropy ElasticNet.layers w data (net w));
            Backward (loss (net w)); OptimizerStep]
           ++ (if i mod 500 =? 499
               then [PrintLine
                       (LossAfterMiniBatch
                          (i + 1) 5 (loss (net w))
                          [("L1"%string, l1 (net w));
                           ("L2"%string, l2 (net w))])]
               else []))) /\
    (forall i data current_loss w,
        let loss := cross_entropy DropoutNb.layers w data in
        DropoutNb.iteration i data current_loss w
        = ((if i mod 500 =? 499 then 0 else current_loss + loss (net w))%Q,
           updated DropoutNb.layers DropoutNb.optimizer loss w data,
           [ZeroGrad; Forward; ComputeLoss (loss (net w));
            Backward (loss (net w)); OptimizerStep]
           ++ (if i mod 500 =? 499
               then [PrintLine
                       (LossAfterMiniBatch
                          (i + 1) 3
                          ((current_loss + loss (net w)) / 500)%Q [])]
               else []))) /\
    (forall i data current_loss w,
        let loss := cross_entropy CNN.layers w data in
        CNN.iteration i data current_loss w
        = ((if i mod 500 =? 499 then 0 else current_loss + loss (net w))%Q,
           updated CNN.layers CNN.optimizer loss w data,
           [ZeroGrad; Forward; ComputeLoss (loss (net w));
            Backward (loss (net w)); OptimizerStep]
           ++ (if i mod 500 =? 499
               then [PrintLine
                       (LossAfterMiniBatch
                          (i + 1) 6
                          ((current_loss + loss (net w)) / 500)%Q [])]
               else []))) /\
    (forall layers optimizer (loss : MLP -> Q) w data,
        updated layers optimizer loss w data
        = world (step optimizer
                  (world (backward {| value := loss (net w); graph := loss |}
                            (world (call layers (fst data)
                                      (world (zero_grad w)))))))) /\
    (forall layers optimizer (loss : CNN.ConvNet -> Q) w data,
        updated layers optimizer loss w data
        = world (step optimizer
                  (world (backward {| value := loss (net w); graph := loss |}
                            (world (call layers (fst data)
                                      (world (zero_grad w)))))))) /\
    (forall xs i s w,
        calls (trace (for_enumerate L1.iteration i xs s w))
        = flat_map (fun _ => five_steps) xs) /\
    (forall xs i s w,
        calls (trace (for_enumerate L2.iteration i xs s w))
        = flat_map (fun _ => five_steps) xs) /\
    (forall xs i s w,
        calls (trace (for_enumerate ElasticNet.iteration i xs s w))
        = flat_map (fun _ => five_steps) xs) /\
    (forall xs i s w,
        calls (trace (for_enumerate DropoutNb.iteration i xs s w))
        = flat_map (fun _ => five_steps) xs) /\
    (forall xs i s w,
        calls (trace (for_enumerate CNN.iteration i xs s w))
        = flat_map (fun _ => five_steps) xs) /\
    (exists n, calls L1.main = concat (repeat five_steps n)) /\
    (exists n, calls L2.main = concat (repeat five_steps n)) /\
    (exists n, calls ElasticNet.main = concat (repeat five_steps n)) /\
    (exists n, calls DropoutNb.main = concat (repeat five_steps n)) /\
    (exists n, calls CNN.main = concat (repeat five_steps n)).
Proof.
  intros T T'.
  split; [exact L1_iteration_unfold|].
  split; [exact L2_iteration_unfold|].
  split; [exact ElasticNet_iteration_unfold|].
  split; [exact Dropout_iteration_unfold|].
  split; [exact CNN_iteration_unfold|].
  split; [reflexivity|]. split; [reflexivity|].
  repeat split.
  - apply for_enumerate_calls, L1_iteration_calls.
  - apply for_enumerate_calls, L2_iteration_calls.
  - apply for_enumerate_calls, ElasticNet_iteration_calls.
  - apply for_enumerate_calls, Dropout_iteration_calls.
  - apply for_enumerate_calls, CNN_iteration_calls.
  - apply main_calls. intros e w. rewrite L1_epoch_trace.
    apply (loop_calls_blocks _ L1_iteration_calls).
  - apply main_calls. intros e w. rewrite L2_epoch_trace.
    apply (loop_calls_blocks _ L2_iteration_calls).
  - apply main_calls. intros e w. rewrite ElasticNet_epoch_trace.
    apply (loop_calls_blocks _ ElasticNet_iteration_calls).
  - apply main_calls. intros e w. rewrite Dropout_epoch_trace.
    apply (loop_calls_blocks _ Dropout_iteration_calls).
  - apply main_calls. intros e w. rewrite CNN_epoch_trace.
    apply (loop_calls_blocks _ CNN_iteration_calls).
Qed.

(** C10.  In the Dropout and ConvNet notebooks [current_loss] is zero when
    an epoch starts its loop (whatever the state the previous epoch left)
    and zero again after every statistics line: an iteration returns zero
    when it prints and the accumulator plus its own loss otherwise; a loop
    backpropagates one loss per mini-batch; so in
    every epoch, and in the whole run epoch by epoch, the figures printed
    are one per complete block of 500 mini-batches of that epoch, each the
    losses of that block alone, summed up from zero, over 500. *)
Theorem current_loss_accumulator :
  forall (T : Torch MLP) (T' : Torch CNN.ConvNet),
    (forall i x current_loss w,
        exists v,
          backpropagated (trace (DropoutNb.iteration i x current_loss w)) = [v] /\
          loss_figures (trace (DropoutNb.iteration i x current_loss w))
          = (if i mod 500 =? 499
             then [(i + 1, ((current_loss + v) / 500)%Q)] else []) /\
          result (DropoutNb.iteration i x current_loss w)
          = (if i mod 500 =? 499 then 0%Q else (current_loss + v)%Q)) /\
    (forall i x current_loss w,
        exists v,
          backpropagated (trace (CNN.iteration i x current_loss w)) = [v] /\
          loss_figures (trace (CNN.iteration i x current_loss w))
          = (if i mod 500 =? 499
             then [(i + 1, ((current_loss + v) / 500)%Q)] else []) /\
          result (CNN.iteration i x current_loss w)
          = (if i mod 500 =? 499 then 0%Q else (current_loss + v)%Q)) /\
    (forall xs i current_loss w,
        length (backpropagated
                  (trace (for_enumerate DropoutNb.iteration i xs current_loss w)))
        = length xs) /\
    (forall xs i current_loss w,
        length (backpropagated
                  (trace (for_enumerate CNN.iteration i xs current_loss w)))
        = length xs) /\
    (forall e w,
        trace (DropoutNb.epoch e w)
        = PrintLine (StartingEpoch (e + 1))
          :: trace (for_enumerate DropoutNb.iteration 0
                      (fst (DataLoader DropoutNb.trainloader (rng w)))
                      0%Q (world (batches DropoutNb.trainloader w)))) /\
    (forall e w,
        trace (CNN.epoch e w)
        = PrintLine (StartingEpoch (e + 1))
          :: trace (for_enumerate CNN.iteration 0
                      (fst (DataLoader CNN.trainloader (rng w)))
                      0%Q (world (batches CNN.trainloader w)))) /\
    (forall e w,
        loss_figures (trace (DropoutNb.epoch e w))
        = mean_of_blocks (backpropagated (trace (DropoutNb.epoch e w)))) /\
    (forall e w,
        loss_figures (trace (CNN.epoch e w))
        = mean_of_blocks (backpropagated (trace (CNN.epoch e w)))) /\
    loss_figures DropoutNb.main
    = flat_map (fun tr => mean_of_blocks (backpropagated tr))
               (epoch_traces DropoutNb.epoch (seq 0 5)
                             (initial_world DropoutNb.layers
                                            DropoutNb.optimizer)) /\
    loss_figures CNN.main
    = flat_map (fun tr => mean_of_blocks (backpropagated tr))
               (epoch_traces CNN.epoch (seq 0 3)
                             (initial_world CNN.layers CNN.optimizer)).
Proof.
  intros T T'. repeat split.
  - exact Dropout_iteration_figure.
  - exact CNN_iteration_figure.
  - exact Dropout_loop_items.
  - exact CNN_loop_items.
  - exact Dropout_epoch_trace.
  - exact CNN_epoch_trace.
  - exact Dropout_epoch_figures.
  - exact CNN_epoch_figures.
  - apply (main_figures (fun tr => mean_of_blocks (backpropagated tr))).
    exact Dropout_epoch_figures.
  - apply (main_figures (fun tr => mean_of_blocks (backpropagated tr))).
    exact CNN_epoch_figures.
Qed.

Lemma Forall2_map_self {A B : Type} (R : B -> A -> Prop) (f : A -> B)
      (xs : list A) :
  (forall x, R (f x) x) -> Forall2 R (map f xs) xs.
Proof. intro H. induction xs; simpl; constructor; auto. Qed.

Lemma mean_of_blocks_accumulated (tr : list Event) :
  loss_figures tr = mean_of_blocks (backpropagated tr) ->
  prints_accumulated_loss tr.
Proof.
  intro E. unfold prints_accumulated_loss. rewrite E. unfold mean_of_blocks.
  apply Forall2_map_self. intro k. cbn [fst snd]. split; [reflexivity|].
  right. rewrite fold_left_Qplus. field.
Qed.

(** Every epoch of the two notebooks that keep an accumulator prints the
    accumulated loss. *)
Lemma accumulating_epochs_print_accumulated_loss :
  forall (T : Torch MLP) (T' : Torch CNN.ConvNet),
    (forall e w, prints_accumulated_loss (trace (DropoutNb.epoch e w))) /\
    (forall e w, prints_accumulated_loss (trace (CNN.epoch e w))).
Proof.
  intros T T'. split; intros e w; apply mean_of_blocks_accumulated.
  - apply Dropout_epoch_figures.
  - apply CNN_epoch_figures.
Qed.

(** C5 fails as stated: in an epoch of 500 mini-batches with losses 1, 2,
    ..., 500 (the small instance, parameters zero), the L1 notebook prints
    500, the loss of the 500th mini-batch, where the losses of the block
    add up to 125250 (250.5 on average); the Dropout notebook, on the same
    epoch, prints the accumulated loss. *)
Lemma L1_prints_last_loss_only :
  ~ prints_accumulated_loss
      (trace (L1.epoch 0 (Toy.world Toy.zero_mlp 500))) /\
  prints_accumulated_loss
    (trace (DropoutNb.epoch 0 (Toy.world Toy.zero_mlp 500))).
Proof.
  split; [|apply mean_of_blocks_accumulated, Dropout_epoch_figures].
  set (tr := trace (L1.epoch 0 (Toy.world Toy.zero_mlp 500))).
  assert (F : loss_figures tr = [(500, 500%Q)])
    by (vm_compute; reflexivity).
  assert (N : length (backpropagated tr) / 500 = 1)
    by (vm_compute; reflexivity).
  assert (B1 : Qeq_bool 500 (sum_list (block 0 (backpropagated tr))) = false)
    by (vm_compute; reflexivity).
  assert (B2 : Qeq_bool 500 (sum_list (block 0 (backpropagated tr)) / 500)
               = false)
    by (vm_compute; reflexivity).
  unfold prints_accumulated_loss. rewrite F, N. cbn [seq]. intro H.
  inversion H as [|fig k figs ks [_ [E|E]] _]; cbn [snd] in E;
    apply Qeq_bool_iff in E; congruence.
Qed.

(** C5, amended.  In every notebook a loop prints a statistics line right
    after the five calls of each mini-batch with [i % 500 == 499], numbered
    [i + 1], and nowhere else; it backpropagates one loss per mini-batch.
    In the Dropout and ConvNet notebooks the
    figure is the loss accumulated since the previous line, over 500; in
    the L1, L2 and Elastic Net notebooks it is the loss of that mini-batch
    alone. *)
Theorem statistics_every_500 :
  forall (T : Torch MLP) (T' : Torch CNN.ConvNet),
    ((forall xs i s w,
         outline (trace (for_enumerate L1.iteration i xs s w))
         = flat_map iteration_outline (seq i (length xs))) /\
     (forall xs i s w,
         outline (trace (for_enumerate L2.iteration i xs s w))
         = flat_map iteration_outline (seq i (length xs))) /\
     (forall xs i s w,
         outline (trace (for_enumerate ElasticNet.iteration i xs s w))
         = flat_map iteration_outline (seq i (length xs))) /\
     (forall xs i s w,
         outline (trace (for_enumerate DropoutNb.iteration i xs s w))
         = flat_map iteration_outline (seq i (length xs))) /\
     (forall xs i s w,
         outline (trace (for_enumerate CNN.iteration i xs s w))
         = flat_map iteration_outline (seq i (length xs)))) /\
    ((forall xs i s w,
         length (backpropagated (trace (for_enumerate L1.iteration i xs s w)))
         = length xs) /\
     (forall xs i s w,
         length (backpropagated (trace (for_enumerate L2.iteration i xs s w)))
         = length xs) /\
     (forall xs i s w,
         length (backpropagated
                   (trace (for_enumerate ElasticNet.iteration i xs s w)))
         = length xs) /\
     (forall xs i s w,
         length (backpropagated
                   (trace (for_enumerate DropoutNb.iteration i xs s w)))
         = length xs) /\
     (forall xs i s w,
         length (backpropagated (trace (for_enumerate CNN.iteration i xs s w)))
         = length xs)) /\
    ((forall e w,
         loss_figures (trace (L1.epoch e w))
         = last_of_blocks (backpropagated (trace (L1.epoch e w)))) /\
     (forall e w,
         loss_figures (trace (L2.epoch e w))
         = last_of_blocks (backpropagated (trace (L2.epoch e w)))) /\
     (forall e w,
         loss_figures (trace (ElasticNet.epoch e w))
         = last_of_blocks (backpropagated (trace (ElasticNet.epoch e w)))) /\
     (forall e w,
         loss_figures (trace (DropoutNb.epoch e w))
         = mean_of_blocks (backpropagated (trace (DropoutNb.epoch e w)))) /\
     (forall e w,
         loss_figures (trace (CNN.epoch e w))
         = mean_of_blocks (backpropagated (trace (CNN.epoch e w))))).
Proof.
  intros T T'. split; [|split]; repeat split.
  - apply for_enumerate_outline, L1_iteration_outline.
  - apply for_enumerate_outline, L2_iteration_outline.
  - apply for_enumerate_outline, ElasticNet_iteration_outline.
  - apply for_enumerate_outline, Dropout_iteration_outline.
  - apply for_enumerate_outline, CNN_iteration_outline.
  - exact L1_loop_items.
  - exact L2_loop_items.
  - exact ElasticNet_loop_items.
  - exact Dropout_loop_items.
  - exact CNN_loop_items.
  - exact L1_epoch_figures.
  - exact L2_epoch_figures.
  - exact ElasticNet_epoch_figures.
  - exact Dropout_epoch_figures.
  - exact CNN_epoch_figures.
Qed.

(** C4 fails as stated: on the small instance, where the parameters are
    zero, the network ignores its stack and the optimiser its settings, so
    that no regularisation has any effect, the L1 notebook prints 500 after
    mini-batch 500 and the Dropout notebook prints 250.5. *)
Lemma L1_and_Dropout_statistics_differ :
  ~ same_statistics (@L1.main (Toy.library Toy.zero_mlp 500))
                    (@DropoutNb.main (Toy.library Toy.zero_mlp 500)).
Proof.
  assert (F1 : loss_figures (@L1.main (Toy.library Toy.zero_mlp 500))
               = [(500, 500%Q); (500, 500%Q); (500, 500%Q); (500, 500%Q);
                  (500, 500%Q)])
    by (vm_compute; reflexivity).
  assert (F2 : loss_figures (@DropoutNb.main (Toy.library Toy.zero_mlp 500))
               = [(500, (125250 # 500)%Q); (500, (125250 # 500)%Q);
                  (500, (125250 # 500)%Q); (500, (125250 # 500)%Q);
                  (500, (125250 # 500)%Q)])
    by (vm_compute; reflexivity).
  unfold same_statistics. rewrite F1, F2. intro H.
  inversion H as [|a b l l' [_ E] _]. vm_compute in E. discriminate E.
Qed.

(** C4, amended.  The loops of the L1, L2, Elastic Net and Dropout
    notebooks have the same layer stack up to the dropout layers, the same
    optimiser algorithm and learning rate, the same loader, and for the same
    batches the same library calls and the same statistics lines after the
    same mini-batches.  They differ in the
    regularisation and in the statistic: L1, L2 and Elastic Net keep no
    accumulator and print the loss of the mini-batch at hand, Dropout
    prints its accumulator over 500. *)
Theorem loops_alike_up_to_statistic :
  forall T : Torch MLP,
    (L1.layers = L2.layers /\
     L2.layers = ElasticNet.layers /\
     without_dropout DropoutNb.layers = ElasticNet.layers) /\
    (L1.optimizer = L2.optimizer /\
     L2.optimizer = ElasticNet.optimizer /\
     algorithm DropoutNb.optimizer = algorithm ElasticNet.optimizer /\
     lr DropoutNb.optimizer = lr ElasticNet.optimizer) /\
    (L1.trainloader = L2.trainloader /\
     L2.trainloader = ElasticNet.trainloader /\
     ElasticNet.trainloader = DropoutNb.trainloader) /\
    (forall xs i w1 w2 w3 w4 current_loss,
        let o := outline (trace (for_enumerate L1.iteration i xs tt w1)) in
        o = flat_map iteration_outline (seq i (length xs)) /\
        outline (trace (for_enumerate L2.iteration i xs tt w2)) = o /\
        outline (trace (for_enumerate ElasticNet.iteration i xs tt w3)) = o /\
        outline (trace (for_enumerate DropoutNb.iteration i xs current_loss w4))
        = o) /\
    (forall e w,
        loss_figures (trace (L1.epoch e w))
        = last_of_blocks (backpropagated (trace (L1.epoch e w)))) /\
    (forall e w,
        loss_figures (trace (L2.epoch e w))
        = last_of_blocks (backpropagated (trace (L2.epoch e w)))) /\
    (forall e w,
        loss_figures (trace (ElasticNet.epoch e w))
        = last_of_blocks (backpropagated (trace (ElasticNet.epoch e w)))) /\
    (forall e w,
        loss_figures (trace (DropoutNb.epoch e w))
        = mean_of_blocks (backpropagated (trace (DropoutNb.epoch e w)))).
Proof.
  intro T. split; [repeat split|]. split; [repeat split|].
  split; [repeat split|]. split; [|repeat split].
  - intros xs i w1 w2 w3 w4 c o. subst o.
    rewrite (for_enumerate_outline _ L1_iteration_outline).
    rewrite (for_enumerate_outline _ L2_iteration_outline).
    rewrite (for_enumerate_outline _ ElasticNet_iteration_outline).
    rewrite (for_enumerate_outline _ Dropout_iteration_outline).
    repeat split.
  - exact L1_epoch_figures.
  - exact L2_epoch_figures.
  - exact ElasticNet_epoch_figures.
  - exact Dropout_epoch_figures.
Qed.

(** ** Runs on the small instance *)

(** One Elastic Net iteration, mini-batch 500, cross-entropy 3, on
    parameters whose absolute values add up to 11 and whose squares add up
    to 30.5: the penalties are 3.3 and 21.35. *)
Example ElasticNet_iteration_500 :
  trace (@ElasticNet.iteration (Toy.library Toy.small_mlp 1) 499 (3%Q, tt) tt
                               (Toy.world Toy.small_mlp 1))
  = [ZeroGrad; Forward; ComputeLoss 3; Backward (176960 # 6400);
     OptimizerStep;
     PrintLine (LossAfterMiniBatch 500 5 (176960 # 6400)
              [("L1"%string, (132 # 40)%Q); ("L2"%string, (3416 # 160)%Q)])]
  /\ Qred (176960 # 6400) = (553 # 20)%Q
  /\ Qred (132 # 40) = (33 # 10)%Q
  /\ Qred (3416 # 160) = (427 # 20)%Q.
Proof. repeat split. Qed.

(** An L1 iteration that is not due for a line prints nothing. *)
Example L1_iteration_8 :
  trace (@L1.iteration (Toy.library Toy.small_mlp 1) 7 (3%Q, tt) tt
                       (Toy.world Toy.small_mlp 1))
  = [ZeroGrad; Forward; ComputeLoss 3; Backward (56 # 4); OptimizerStep].
Proof. reflexivity. Qed.

(** A Dropout iteration that is due prints the accumulator over 500 and
    hands back zero. *)
Example Dropout_iteration_1000 :
  let r := @DropoutNb.iteration (Toy.library Toy.zero_mlp 1) 999 (3%Q, tt) 2%Q
                                (Toy.world Toy.zero_mlp 1) in
  result r = 0%Q /\
  trace r = [ZeroGrad; Forward; ComputeLoss 3; Backward 3; OptimizerStep;
             PrintLine (LossAfterMiniBatch 1000 3 (5 # 500) [])].
Proof. split; reflexivity. Qed.

(** An epoch of 1200 mini-batches with losses 1, 2, ..., 1200: two lines;
    the last 200 losses are never reported. *)
Example Dropout_epoch_1200 :
  Toy.reduced
    (loss_figures (trace (DropoutNb.epoch 0 (Toy.world Toy.zero_mlp 1200))))
  = [(500, (501 # 2)%Q); (1000, (1501 # 2)%Q)].
Proof. vm_compute. reflexivity. Qed.

Example L1_epoch_1200 :
  Toy.reduced
    (loss_figures (trace (L1.epoch 0 (Toy.world Toy.small_mlp 1200))))
  = [(500, 511%Q); (1000, 1011%Q)].
Proof. vm_compute. reflexivity. Qed.

Example CNN_main_1200 :
  Toy.reduced (loss_figures (@CNN.main (Toy.library Toy.zero_convnet 1200)))
  = [(500, (501 # 2)%Q); (1000, (1501 # 2)%Q);
     (500, (501 # 2)%Q); (1000, (1501 # 2)%Q);
     (500, (501 # 2)%Q); (1000, (1501 # 2)%Q)].
Proof. vm_compute. reflexivity. Qed.

(** The shape rules give the second table the notebook prints, for
    [ConvNet2] with its default arguments; the constructor refuses
    dropout probabilities outside [0, 1]. *)
Example ConvNet2_summary :
  option_map (fun layers => Shapes.summary layers [1; 1; 28; 28])
             (CNN.ConvNet2_layers 1 10 (2 # 10))
  = Some (Some [ [1; 32; 26; 26]; [1; 32; 26; 26]; [1; 32; 13; 13];
                 [1; 64; 11; 11]; [1; 64; 11; 11]; [1; 64; 5; 5];
                 [1; 128; 5; 5]; [1; 128; 5; 5]; [1; 128; 2; 2];
                 [1; 64; 2; 2]; [1; 64; 2; 2]; [1; 64; 1; 1];
                 [1; 64];
                 [1; 128]; [1; 128]; [1; 128];
                 [1; 10] ]) /\
  CNN.ConvNet2_layers 1 10 (3 # 2) = None /\
  CNN.ConvNet2_layers 1 10 (-1 # 2) = None /\
  CNN.ConvNet2_layers 1 10 0 <> None /\
  CNN.ConvNet2_layers 1 10 1 <> None.
Proof. repeat split; discriminate. Qed.

(** Other inputs are refused by [ConvNet]: three channels, 32x32 images,
    images too small for the kernels. *)
Example ConvNet_shape_errors :
  Shapes.forward_shape CNN.layers [1; 3; 28; 28] = None /\
  Shapes.forward_shape CNN.layers [1; 1; 32; 32] = None /\
  Shapes.forward_shape CNN.layers [1; 1; 4; 28] = None.
Proof. repeat split. Qed.

(** * Further properties of the notebooks *)

(** ** The penalties as numbers *)

Lemma sum_abs_nonneg (xs : list Q) : (0 <= sum_abs xs)%Q.
Proof.
  induction xs as [|x xs IH]; simpl; [lra|].
  pose proof (Qabs_nonneg x). lra.
Qed.

Lemma sum_squares_nonneg (xs : list Q) : (0 <= sum_squares xs)%Q.
Proof.
  induction xs as [|x xs IH]; simpl; [lra|]. nra.
Qed.

Lemma Qabs_zero (x : Q) : (Qabs x == 0 <-> x == 0)%Q.
Proof.
  split; intro H.
  - revert H. apply Qabs_case; intros; lra.
  - rewrite H. reflexivity.
Qed.

Lemma sum_abs_zero (xs : list Q) :
  (sum_abs xs == 0)%Q <-> Forall (fun x => x == 0)%Q xs.
Proof.
  induction xs as [|x xs IH]; simpl.
  - split; [constructor | reflexivity].
  - pose proof (Qabs_nonneg x). pose proof (sum_abs_nonneg xs). split.
    + intro E. constructor.
      * apply Qabs_zero. lra.
      * apply IH. lra.
    + intro F. inversion F as [|y ys Hx Hxs]; subst.
      apply Qabs_zero in Hx. apply IH in Hxs. lra.
Qed.

Lemma sum_squares_zero (xs : list Q) :
  (sum_squares xs == 0)%Q <-> Forall (fun x => x == 0)%Q xs.
Proof.
  induction xs as [|x xs IH]; simpl.
  - split; [constructor | reflexivity].
  - pose proof (sum_squares_nonneg xs). split.
    + intro E. assert (Hx : (x * x == 0)%Q) by nra. constructor.
      * destruct (Qmult_integral _ _ Hx); assumption.
      * apply IH. nra.
    + intro F. inversion F as [|y ys Hx Hxs]; subst.
      apply IH in Hxs. rewrite Hx, Hxs. ring.
Qed.

Lemma sum_squares_le_abs (xs : list Q) :
  Forall (fun x => Qabs x <= 1)%Q xs -> (sum_squares xs <= sum_abs xs)%Q.
Proof.
  induction 1 as [|x xs Hx _ IH]; simpl; [lra|].
  assert (x * x <= Qabs x)%Q by (revert Hx; apply Qabs_case; intros; nra).
  lra.
Qed.

(** In the three penalty notebooks the loss handed to [backward] is never
    below the cross-entropy of the forward pass. *)
Theorem penalised_loss_not_below_cross_entropy :
  forall (T : Torch MLP) (i : nat) (data : Input * Target) (w : World),
    (exists v,
        backpropagated (trace (L1.iteration i data tt w)) = [v] /\
        (cross_entropy L1.layers w data (net w) <= v)%Q) /\
    (exists v,
        backpropagated (trace (L2.iteration i data tt w)) = [v] /\
        (cross_entropy L2.layers w data (net w) <= v)%Q) /\
    (exists v,
        backpropagated (trace (ElasticNet.iteration i data tt w)) = [v] /\
        (cross_entropy ElasticNet.layers w data (net w) <= v)%Q).
Proof.
  intros T i data w.
  pose proof (sum_abs_nonneg (elems (flat_parameters (net w)))) as A.
  pose proof (sum_squares_nonneg (elems (flat_parameters (net w)))) as B.
  rewrite <- sum_of_abs in A. rewrite <- sum_of_squares in B.
  repeat split.
  - rewrite L1_iteration_unfold. cbv zeta.
    destruct (i mod 500 =? 499); eexists; (split; [reflexivity|]);
      unfold L1.compute_l1_loss; lra.
  - rewrite L2_iteration_unfold. cbv zeta.
    destruct (i mod 500 =? 499); eexists; (split; [reflexivity|]);
      unfold L2.compute_l2_loss; lra.
  - rewrite ElasticNet_iteration_unfold. cbv zeta.
    destruct (i mod 500 =? 499); eexists; (split; [reflexivity|]);
      unfold ElasticNet.compute_l1_loss, ElasticNet.compute_l2_loss; lra.
Qed.

Lemma float32_zero (x : spec_float) :
  SFeqb x float32.zero = true -> exists s, x = S754_zero s.
Proof.
  destruct x as [s|s| |s m e]; try discriminate.
  - intros _. exists s. reflexivity.
  - destruct s; discriminate.
  - destruct s; discriminate.
Qed.

Lemma float32_sum_zero (f : spec_float -> spec_float) (xs : list spec_float) :
  (forall s, f (S754_zero s) = float32.zero) ->
  Forall (fun x => SFeqb x float32.zero = true) xs ->
  fold_left float32.add (map f xs) float32.zero = float32.zero.
Proof.
  intros Hf. induction 1 as [|x xs Hx _ IH]; [reflexivity|].
  destruct (float32_zero _ Hx) as [s ->].
  cbn [map fold_left]. rewrite Hf. exact IH.
Qed.

(** On a network whose parameters are all zero the penalties add nothing:
    [compute_l1_loss] and [compute_l2_loss] of the parameters are zero and
    in each penalty notebook the loss handed to [backward] is the
    cross-entropy.  In single precision too the penalties of a tensor of
    zeros are zero.  The converse does not hold in single precision: the
    square of 2^-100 is rounded to zero. *)
Theorem penalty_vanishes_at_zero :
  (forall (T : Torch MLP) (i : nat) (data : Input * Target) (w : World),
      Forall (fun x => x == 0)%Q (concat (map elems (tensors (net w)))) ->
      (exists v,
          backpropagated (trace (L1.iteration i data tt w)) = [v] /\
          (v == cross_entropy L1.layers w data (net w))%Q) /\
      (exists v,
          backpropagated (trace (L2.iteration i data tt w)) = [v] /\
          (v == cross_entropy L2.layers w data (net w))%Q) /\
      (exists v,
          backpropagated (trace (ElasticNet.iteration i data tt w)) = [v] /\
          (v == cross_entropy ElasticNet.layers w data (net w))%Q) /\
      (L1.compute_l1_loss (flat_parameters (net w)) == 0)%Q /\
      (L2.compute_l2_loss (flat_parameters (net w)) == 0)%Q) /\
  (forall t : FloatTensor,
      Forall (fun x => SFeqb x float32.zero = true) (felems t) ->
      torch_float32.compute_l1_loss t = float32.zero /\
      torch_float32.compute_l2_loss t = float32.zero) /\
  (let x := SFldexp float32.prec float32.emax (float32.of_Z 1) (-100) in
   SFeqb x float32.zero = false /\
   torch_float32.compute_l2_loss {| fshape := [1]; felems := [x] |}
   = float32.zero).
Proof.
  split; [|split].
  - intros T i data w Z.
    rewrite <- (elems_cat_views (tensors (net w))) in Z.
    fold (flat_parameters (net w)) in Z.
    pose proof (proj2 (sum_abs_zero (elems (flat_parameters (net w)))) Z) as A.
    pose proof (proj2 (sum_squares_zero (elems (flat_parameters (net w)))) Z)
      as B.
    rewrite <- sum_of_abs in A. rewrite <- sum_of_squares in B.
    repeat split.
    + rewrite L1_iteration_unfold. cbv zeta.
      destruct (i mod 500 =? 499); eexists; (split; [reflexivity|]);
        unfold L1.compute_l1_loss; lra.
    + rewrite L2_iteration_unfold. cbv zeta.
      destruct (i mod 500 =? 499); eexists; (split; [reflexivity|]);
        unfold L2.compute_l2_loss; lra.
    + rewrite ElasticNet_iteration_unfold. cbv zeta.
      unfold ElasticNet.compute_l1_loss, ElasticNet.compute_l2_loss.
      destruct (i mod 500 =? 499); eexists; (split; [reflexivity|]); lra.
    + exact A.
    + exact B.
  - intros t Z. split.
    + apply (float32_sum_zero float32.abs); [|exact Z].
      intros []; reflexivity.
    + apply (float32_sum_zero (fun x => float32.mul x x)); [|exact Z].
      intros []; reflexivity.
  - split; vm_compute; reflexivity.
Qed.

Lemma penalty_vanishes_at_zero_witness :
  let T := Toy.library Toy.zero_mlp 1 in
  let w := Toy.world Toy.zero_mlp 1 in
  let t := {| fshape := [2]; felems := [S754_zero false; S754_zero true] |} in
  (Forall (fun x => x == 0)%Q (concat (map elems (tensors (@net _ T w)))) /\
   exists v,
     backpropagated (trace (@L1.iteration T 0 (3%Q, tt) tt w)) = [v] /\
     (v == @cross_entropy _ T L1.layers w (3%Q, tt) (net w))%Q) /\
  (Forall (fun x => SFeqb x float32.zero = true) (felems t) /\
   torch_float32.compute_l2_loss t = float32.zero).
Proof.
  intros T w t.
  assert (Z : Forall (fun x => x == 0)%Q
                     (concat (map elems (tensors (@net _ T w)))))
    by (repeat constructor).
  assert (Z' : Forall (fun x => SFeqb x float32.zero = true) (felems t))
    by (repeat constructor).
  split; (split; [assumption|]).
  - exact (proj1 (proj1 penalty_vanishes_at_zero T 0 (3%Q, tt) w Z)).
  - exact (proj2 (proj1 (proj2 penalty_vanishes_at_zero) t Z')).
Defined.

(** Parameters of magnitude at most one are penalised no more by
    [compute_l2_loss] than by [compute_l1_loss]. *)
Theorem l2_penalty_below_l1_for_small_weights :
  forall t : Tensor,
    Forall (fun x => Qabs x <= 1)%Q (elems t) ->
    (ElasticNet.compute_l2_loss t <= ElasticNet.compute_l1_loss t)%Q.
Proof.
  intros t H. unfold ElasticNet.compute_l2_loss, ElasticNet.compute_l1_loss.
  rewrite sum_of_squares, sum_of_abs. now apply sum_squares_le_abs.
Qed.

Lemma l2_penalty_below_l1_for_small_weights_witness :
  let t := {| shape := [3]; elems := [1 # 2; - (3 # 4); 1]%Q |} in
  Forall (fun x => Qabs x <= 1)%Q (elems t) /\
  (ElasticNet.compute_l2_loss t <= ElasticNet.compute_l1_loss t)%Q.
Proof.
  intro t.
  assert (H : Forall (fun x => Qabs x <= 1)%Q (elems t))
    by (repeat constructor; vm_compute; discriminate).
  split; [exact H | exact (l2_penalty_below_l1_for_small_weights t H)].
Defined.

(** What a statistics line of a penalty notebook shows: the loss is the
    cross-entropy plus the components listed after it, all taken at the
    parameters of the forward pass, not at the parameters the optimiser
    has stepped to by the time the line is printed. *)
Theorem statistics_line_adds_up :
  forall (T : Torch MLP) (i : nat) (data : Input * Target) (w : World),
    let ce := fun layers => cross_entropy layers w data (net w) in
    let l1 := L1.compute_l1_loss (flat_parameters (net w)) in
    let l2 := L2.compute_l2_loss (flat_parameters (net w)) in
    printed (trace (L1.iteration i data tt w))
    = (if i mod 500 =? 499
       then [LossAfterMiniBatch (i + 1) 5 (ce L1.layers + 1 * l1)%Q
                                [("L1"%string, (1 * l1)%Q)]]
       else []) /\
    printed (trace (L2.iteration i data tt w))
    = (if i mod 500 =? 499
       then [LossAfterMiniBatch (i + 1) 5 (ce L2.layers + 1 * l2)%Q
                                [("l2"%string, (1 * l2)%Q)]]
       else []) /\
    printed (trace (ElasticNet.iteration i data tt w))
    = (if i mod 500 =? 499
       then [LossAfterMiniBatch
               (i + 1) 5
               (ce ElasticNet.layers + (3 # 10) * l1 + (7 # 10) * l2)%Q
               [("L1"%string, ((3 # 10) * l1)%Q);
                ("L2"%string, ((7 # 10) * l2)%Q)]]
       else []).
Proof.
  intros T i data w ce l1 l2.
  rewrite L1_iteration_unfold, L2_iteration_unfold, ElasticNet_iteration_unfold.
  destruct (i mod 500 =? 499); repeat split.
Qed.

(** ** What an iteration depends on *)

Lemma backpropagated_app (tr1 tr2 : list Event) :
  backpropagated (tr1 ++ tr2) = backpropagated tr1 ++ backpropagated tr2.
Proof. apply flat_map_app. Qed.

Section Dependence.
Context {Model : Type} {T : Torch Model} {B St : Type}.
Variable body : nat -> B -> St -> M St.

Lemma for_enumerate_with_grad :
  (forall i x s w g, body i x s (with_grad g w) = body i x s w) ->
  forall xs i s w g,
    trace (for_enumerate body i xs s (with_grad g w))
    = trace (for_enumerate body i xs s w) /\
    result (for_enumerate body i xs s (with_grad g w))
    = result (for_enumerate body i xs s w).
Proof.
  intros H xs i s w g. destruct xs as [|x xs]; [split; reflexivity|].
  cbn [for_enumerate]. unfold bind. rewrite H. split; reflexivity.
Qed.

Lemma for_enumerate_world :
  (forall i j x s s' w,
      world (body i x s w) = world (body j x s' w) /\
      backpropagated (trace (body i x s w))
      = backpropagated (trace (body j x s' w))) ->
  forall xs i j s s' w,
    world (for_enumerate body i xs s w) = world (for_enumerate body j xs s' w) /\
    backpropagated (trace (for_enumerate body i xs s w))
    = backpropagated (trace (for_enumerate body j xs s' w)).
Proof.
  intros H xs. induction xs as [|x xs IH]; intros i j s s' w;
    [split; reflexivity|].
  destruct (H i j x s s' w) as [Hw Hb].
  rewrite !for_enumerate_cons.
  change (world (for_enumerate body i (x :: xs) s w))
    with (world (for_enumerate body (S i) xs (result (body i x s w))
                               (world (body i x s w)))).
  change (world (for_enumerate body j (x :: xs) s' w))
    with (world (for_enumerate body (S j) xs (result (body j x s' w))
                               (world (body j x s' w)))).
  rewrite !backpropagated_app, Hb, Hw.
  destruct (IH (S i) (S j) (result (body i x s w)) (result (body j x s' w))
               (world (body j x s' w))) as [IHw IHb].
  split; [exact IHw|]. f_equal. exact IHb.
Qed.
End Dependence.

(** Gradients never pile up from one mini-batch to the next: whatever the
    [.grad] buffers hold when an iteration starts, the iteration returns,
    emits and leaves behind the same; so do whole loops in what they emit
    and return. *)
Theorem gradients_do_not_accumulate :
  forall (T : Torch MLP) (T' : Torch CNN.ConvNet),
    (forall i data s w g,
        L1.iteration i data s (with_grad g w) = L1.iteration i data s w) /\
    (forall i data s w g,
        L2.iteration i data s (with_grad g w) = L2.iteration i data s w) /\
    (forall i data s w g,
        ElasticNet.iteration i data s (with_grad g w)
        = ElasticNet.iteration i data s w) /\
    (forall i data s w g,
        DropoutNb.iteration i data s (with_grad g w)
        = DropoutNb.iteration i data s w) /\
    (forall i data s w g,
        CNN.iteration i data s (with_grad g w) = CNN.iteration i data s w) /\
    (forall xs i s w g,
        trace (for_enumerate L1.iteration i xs s (with_grad g w))
        = trace (for_enumerate L1.iteration i xs s w)) /\
    (forall xs i s w g,
        trace (for_enumerate L2.iteration i xs s (with_grad g w))
        = trace (for_enumerate L2.iteration i xs s w)) /\
    (forall xs i s w g,
        trace (for_enumerate ElasticNet.iteration i xs s (with_grad g w))
        = trace (for_enumerate ElasticNet.iteration i xs s w)) /\
    (forall xs i s w g,
        trace (for_enumerate DropoutNb.iteration i xs s (with_grad g w))
        = trace (for_enumerate DropoutNb.iteration i xs s w)) /\
    (forall xs i s w g,
        trace (for_enumerate CNN.iteration i xs s (with_grad g w))
        = trace (for_enumerate CNN.iteration i xs s w)).
Proof.
  intros T T'.
  assert (A1 : forall i data s w g,
             L1.iteration i data s (with_grad g w) = L1.iteration i data s w)
    by (intros; rewrite !L1_iteration_unfold; reflexivity).
  assert (A2 : forall i data s w g,
             L2.iteration i data s (with_grad g w) = L2.iteration i data s w)
    by (intros; rewrite !L2_iteration_unfold; reflexivity).
  assert (A3 : forall i data s w g,
             ElasticNet.iteration i data s (with_grad g w)
             = ElasticNet.iteration i data s w)
    by (intros; rewrite !ElasticNet_iteration_unfold; reflexivity).
  assert (A4 : forall i data s w g,
             DropoutNb.iteration i data s (with_grad g w)
             = DropoutNb.iteration i data s w)
    by (intros; rewrite !Dropout_iteration_unfold; reflexivity).
  assert (A5 : forall i data s w g,
             CNN.iteration i data s (with_grad g w) = CNN.iteration i data s w)
    by (intros; rewrite !CNN_iteration_unfold; reflexivity).
  repeat split; auto; intros.
  - apply (for_enumerate_with_grad _ A1).
  - apply (for_enumerate_with_grad _ A2).
  - apply (for_enumerate_with_grad _ A3).
  - apply (for_enumerate_with_grad _ A4).
  - apply (for_enumerate_with_grad _ A5).
Qed.

(** Statistics never feed back into training: the parameters, optimiser
    state and generator a loop leaves behind, and the losses it
    backpropagates, are the same whatever the number of the first
    mini-batch and whatever the accumulator it starts from. *)
Theorem statistics_do_not_feed_back :
  forall (T : Torch MLP) (T' : Torch CNN.ConvNet),
    (forall xs i j s s' w,
        world (for_enumerate L1.iteration i xs s w)
        = world (for_enumerate L1.iteration j xs s' w) /\
        backpropagated (trace (for_enumerate L1.iteration i xs s w))
        = backpropagated (trace (for_enumerate L1.iteration j xs s' w))) /\
    (forall xs i j s s' w,
        world (for_enumerate L2.iteration i xs s w)
        = world (for_enumerate L2.iteration j xs s' w) /\
        backpropagated (trace (for_enumerate L2.iteration i xs s w))
        = backpropagated (trace (for_enumerate L2.iteration j xs s' w))) /\
    (forall xs i j s s' w,
        world (for_enumerate ElasticNet.iteration i xs s w)
        = world (for_enumerate ElasticNet.iteration j xs s' w) /\
        backpropagated (trace (for_enumerate ElasticNet.iteration i xs s w))
        = backpropagated (trace (for_enumerate ElasticNet.iteration j xs s' w))) /\
    (forall xs i j current_loss current_loss' w,
        world (for_enumerate DropoutNb.iteration i xs current_loss w)
        = world (for_enumerate DropoutNb.iteration j xs current_loss' w) /\
        backpropagated
          (trace (for_enumerate DropoutNb.iteration i xs current_loss w))
        = backpropagated
            (trace (for_enumerate DropoutNb.iteration j xs current_loss' w))) /\
    (forall xs i j current_loss current_loss' w,
        world (for_enumerate CNN.iteration i xs current_loss w)
        = world (for_enumerate CNN.iteration j xs current_loss' w) /\
        backpropagated (trace (for_enumerate CNN.iteration i xs current_loss w))
        = backpropagated
            (trace (for_enumerate CNN.iteration j xs current_loss' w))).
Proof.
  intros T T'. repeat apply conj; apply for_enumerate_world; intros.
  - rewrite !L1_iteration_unfold. cbv zeta.
    destruct (i mod 500 =? 499), (j mod 500 =? 499); split; reflexivity.
  - rewrite !L2_iteration_unfold. cbv zeta.
    destruct (i mod 500 =? 499), (j mod 500 =? 499); split; reflexivity.
  - rewrite !ElasticNet_iteration_unfold. cbv zeta.
    destruct (i mod 500 =? 499), (j mod 500 =? 499); split; reflexivity.
  - rewrite !Dropout_iteration_unfold. cbv zeta.
    destruct (i mod 500 =? 499), (j mod 500 =? 499); split; reflexivity.
  - rewrite !CNN_iteration_unfold. cbv zeta.
    destruct (i mod 500 =? 499), (j mod 500 =? 499); split; reflexivity.
Qed.

(** ** Statistics lines of an epoch *)

Lemma block_complete (k : nat) (items : list Q) :
  k < length items / 500 -> length (block k items) = 500.
Proof.
  intro H. unfold block. rewrite length_firstn, length_skipn.
  assert ((k + 1) * 500 <= length items).
  { pose proof (Nat.Div0.mul_div_le (length items) 500). nia. }
  lia.
Qed.

Lemma Forall_block (P : Q -> Prop) (k : nat) (items : list Q) :
  Forall P items -> Forall P (block k items).
Proof.
  intro H. unfold block.
  rewrite <- (firstn_skipn (k * 500) items) in H.
  apply Forall_app in H. destruct H as [_ H].
  rewrite <- (firstn_skipn 500 (skipn (k * 500) items)) in H.
  apply Forall_app in H. tauto.
Qed.

Lemma last_nth_error {A : Type} (l : list A) (d : A) :
  l <> [] -> nth_error l (length l - 1) = Some (last l d).
Proof.
  induction l as [|x l IH]; [congruence|]. intros _.
  destruct l as [|y l]; [reflexivity|].
  change (last (x :: y :: l) d) with (last (y :: l) d).
  rewrite <- IH by discriminate. cbn [length]. 
  replace (S (S (length l)) - 1) with (S (S (length l) - 1)) by lia.
  reflexivity.
Qed.

Lemma block_last (k : nat) (items : list Q) :
  k < length items / 500 ->
  nth_error items ((k + 1) * 500 - 1) = Some (last (block k items) 0%Q).
Proof.
  intro H. pose proof (@block_complete k items H) as L.
  rewrite <- (@last_nth_error Q (block k items) 0%Q)
    by (intro E; rewrite E in L; discriminate L).
  rewrite L. unfold block.
  rewrite nth_error_firstn. 
  destruct (Nat.ltb_spec (500 - 1) 500) as [_|]; [|lia].
  rewrite nth_error_skipn. f_equal. lia.
Qed.

Lemma mean_numbers (items : list Q) :
  map fst (mean_of_blocks items)
  = map (fun k => (k + 1) * 500) (seq 0 (length items / 500)).
Proof. unfold mean_of_blocks. rewrite map_map. reflexivity. Qed.

Lemma last_numbers (items : list Q) :
  map fst (last_of_blocks items)
  = map (fun k => (k + 1) * 500) (seq 0 (length items / 500)).
Proof. unfold last_of_blocks. rewrite map_map. reflexivity. Qed.

Lemma sum_list_bounds (lo hi : Q) (xs : list Q) :
  Forall (fun x => lo <= x /\ x <= hi)%Q xs ->
  (inject_Z (Z.of_nat (length xs)) * lo <= sum_list xs /\
   sum_list xs <= inject_Z (Z.of_nat (length xs)) * hi)%Q.
Proof.
  induction 1 as [|x xs [Hlo Hhi] _ [IHlo IHhi]].
  - cbn [length sum_list fold_right Z.of_nat].
    change (inject_Z 0) with 0%Q. lra.
  - cbn [length sum_list fold_right].
    rewrite Nat2Z.inj_succ. unfold Z.succ. rewrite inject_Z_plus.
    fold (sum_list xs). change (inject_Z 1) with 1%Q. split; lra.
Qed.

Lemma mean_of_block_bounds (lo hi : Q) (k : nat) (items : list Q) :
  k < length items / 500 ->
  Forall (fun x => lo <= x /\ x <= hi)%Q items ->
  (lo <= fold_left Qplus (block k items) 0 / 500 /\
   fold_left Qplus (block k items) 0 / 500 <= hi)%Q.
Proof.
  intros Hk H.
  pose proof (@sum_list_bounds lo hi _ (@Forall_block _ k items H)) as [A B].
  rewrite (@block_complete k items Hk) in A, B.
  change (inject_Z (Z.of_nat 500)) with 500%Q in A, B.
  pose proof (fold_left_Qplus (block k items) 0) as E.
  set (s := fold_left Qplus (block k items) 0%Q) in *.
  split.
  - apply Qle_shift_div_l; [reflexivity|]. lra.
  - apply Qle_shift_div_r; [reflexivity|]. lra.
Qed.

Section EpochItems.
Context {T : Torch MLP}.

Lemma L1_epoch_items e w :
  length (backpropagated (trace (L1.epoch e w)))
  = length (fst (DataLoader L1.trainloader (rng w))).
Proof. rewrite L1_epoch_trace. apply L1_loop_items. Qed.

Lemma L2_epoch_items e w :
  length (backpropagated (trace (L2.epoch e w)))
  = length (fst (DataLoader L2.trainloader (rng w))).
Proof. rewrite L2_epoch_trace. apply L2_loop_items. Qed.

Lemma ElasticNet_epoch_items e w :
  length (backpropagated (trace (ElasticNet.epoch e w)))
  = length (fst (DataLoader ElasticNet.trainloader (rng w))).
Proof. rewrite ElasticNet_epoch_trace. apply ElasticNet_loop_items. Qed.

Lemma Dropout_epoch_items e w :
  length (backpropagated (trace (DropoutNb.epoch e w)))
  = length (fst (DataLoader DropoutNb.trainloader (rng w))).
Proof. rewrite Dropout_epoch_trace. apply Dropout_loop_items. Qed.
End EpochItems.

Section EpochItemsCNN.
Context {T : Torch CNN.ConvNet}.

Lemma CNN_epoch_items e w :
  length (backpropagated (trace (CNN.epoch e w)))
  = length (fst (DataLoader CNN.trainloader (rng w))).
Proof. rewrite CNN_epoch_trace. apply CNN_loop_items. Qed.
End EpochItemsCNN.

(** How many statistics lines an epoch prints and how they are numbered:
    one per 500 mini-batches the loader yields, rounded down, numbered 500,
    1000, and so on. *)
Theorem statistics_line_numbers :
  forall (T : Torch MLP) (T' : Torch CNN.ConvNet) (e : nat),
    let numbers := fun n => map (fun k => (k + 1) * 500) (seq 0 (n / 500)) in
    (forall w,
        map fst (loss_figures (trace (L1.epoch e w)))
        = numbers (length (fst (DataLoader L1.trainloader (rng w))))) /\
    (forall w,
        map fst (loss_figures (trace (L2.epoch e w)))
        = numbers (length (fst (DataLoader L2.trainloader (rng w))))) /\
    (forall w,
        map fst (loss_figures (trace (ElasticNet.epoch e w)))
        = numbers (length (fst (DataLoader ElasticNet.trainloader (rng w))))) /\
    (forall w,
        map fst (loss_figures (trace (DropoutNb.epoch e w)))
        = numbers (length (fst (DataLoader DropoutNb.trainloader (rng w))))) /\
    (forall w,
        map fst (loss_figures (trace (CNN.epoch e w)))
        = numbers (length (fst (DataLoader CNN.trainloader (rng w))))).
Proof.
  intros T T' e numbers. subst numbers. cbv beta. repeat split; intro w.
  - now rewrite L1_epoch_figures, last_numbers, L1_epoch_items.
  - now rewrite L2_epoch_figures, last_numbers, L2_epoch_items.
  - now rewrite ElasticNet_epoch_figures, last_numbers, ElasticNet_epoch_items.
  - now rewrite Dropout_epoch_figures, mean_numbers, Dropout_epoch_items.
  - now rewrite CNN_epoch_figures, mean_numbers, CNN_epoch_items.
Qed.

(** In the L1, L2 and Elastic Net notebooks a statistics line numbered [n]
    shows the loss of mini-batch [n] of its epoch and of no other: [n] is a
    multiple of 500 and the figure is the [n]-th loss backpropagated in
    that epoch. *)
Theorem statistics_show_one_mini_batch :
  forall (T : Torch MLP) (e : nat) (w : World) (n : nat) (v : Q),
    (In (n, v) (loss_figures (trace (L1.epoch e w))) ->
     n mod 500 = 0 /\
     nth_error (backpropagated (trace (L1.epoch e w))) (n - 1) = Some v) /\
    (In (n, v) (loss_figures (trace (L2.epoch e w))) ->
     n mod 500 = 0 /\
     nth_error (backpropagated (trace (L2.epoch e w))) (n - 1) = Some v) /\
    (In (n, v) (loss_figures (trace (ElasticNet.epoch e w))) ->
     n mod 500 = 0 /\
     nth_error (backpropagated (trace (ElasticNet.epoch e w))) (n - 1)
     = Some v).
Proof.
  intros T e w n v.
  assert (A : forall items,
             In (n, v) (last_of_blocks items) ->
             n mod 500 = 0 /\ nth_error items (n - 1) = Some v).
  { intros items H. unfold last_of_blocks in H.
    apply in_map_iff in H. destruct H as (k & E & Hk).
    apply in_seq in Hk. injection E as <- <-. split.
    - apply Nat.Div0.mod_mul.
    - apply block_last. lia. }
  split; [|split]; intro H; apply A.
  - now rewrite <- L1_epoch_figures.
  - now rewrite <- L2_epoch_figures.
  - now rewrite <- ElasticNet_epoch_figures.
Qed.

(** In the Dropout and ConvNet notebooks every figure printed lies within
    the range of the losses of its epoch: the accumulator is divided by
    exactly the number of losses it holds. *)
Theorem running_mean_within_range :
  forall (T : Torch MLP) (T' : Torch CNN.ConvNet) (e : nat) (lo hi : Q)
         (n : nat) (v : Q),
    (forall w,
        Forall (fun x => lo <= x /\ x <= hi)%Q
               (backpropagated (trace (DropoutNb.epoch e w))) ->
        In (n, v) (loss_figures (trace (DropoutNb.epoch e w))) ->
        (lo <= v /\ v <= hi)%Q) /\
    (forall w,
        Forall (fun x => lo <= x /\ x <= hi)%Q
               (backpropagated (trace (CNN.epoch e w))) ->
        In (n, v) (loss_figures (trace (CNN.epoch e w))) ->
        (lo <= v /\ v <= hi)%Q).
Proof.
  intros T T' e lo hi n v.
  assert (A : forall items,
             Forall (fun x => lo <= x /\ x <= hi)%Q items ->
             In (n, v) (mean_of_blocks items) -> (lo <= v /\ v <= hi)%Q).
  { intros items F H. unfold mean_of_blocks in H.
    apply in_map_iff in H. destruct H as (k & E & Hk).
    apply in_seq in Hk. injection E as _ <-.
    apply mean_of_block_bounds; [lia | exact F]. }
  split; intros w F H; apply (A _ F).
  - now rewrite <- Dropout_epoch_figures.
  - now rewrite <- CNN_epoch_figures.
Qed.

Lemma statistics_show_one_mini_batch_witness :
  let T := Toy.library Toy.zero_mlp 500 in
  let w := Toy.world Toy.zero_mlp 500 in
  In (500, 500%Q) (loss_figures (trace (@L1.epoch T 0 w))) /\
  (500 mod 500 = 0 /\
   nth_error (backpropagated (trace (@L1.epoch T 0 w))) (500 - 1)
   = Some 500%Q).
Proof.
  intros T w.
  assert (H : In (500, 500%Q) (loss_figures (trace (@L1.epoch T 0 w))))
    by (vm_compute; left; reflexivity).
  split; [exact H|].
  exact (proj1 (@statistics_show_one_mini_batch T 0 w 500 500%Q) H).
Defined.

Lemma Forall_between (lo hi : Q) (xs : list Q) :
  forallb (fun x => Qle_bool lo x && Qle_bool x hi) xs = true ->
  Forall (fun x => lo <= x /\ x <= hi)%Q xs.
Proof.
  intro H. apply Forall_forall. intros x Hx.
  pose proof (proj1 (forallb_forall _ xs) H x Hx) as E.
  apply andb_true_iff in E. destruct E as [E1 E2].
  split; now apply Qle_bool_iff.
Qed.

Lemma running_mean_within_range_witness :
  let T := Toy.library Toy.zero_mlp 500 in
  let T' := Toy.library Toy.zero_convnet 500 in
  let w := Toy.world Toy.zero_mlp 500 in
  Forall (fun x => 1 <= x /\ x <= 500)%Q
         (backpropagated (trace (@DropoutNb.epoch T 0 w))) /\
  In (500, (125250 # 500)%Q) (loss_figures (trace (@DropoutNb.epoch T 0 w))) /\
  (1 <= 125250 # 500 /\ 125250 # 500 <= 500)%Q.
Proof.
  intros T T' w.
  assert (F : Forall (fun x => 1 <= x /\ x <= 500)%Q
                     (backpropagated (trace (@DropoutNb.epoch T 0 w))))
    by (apply Forall_between; vm_compute; reflexivity).
  assert (H : In (500, (125250 # 500)%Q)
                 (loss_figures (trace (@DropoutNb.epoch T 0 w))))
    by (vm_compute; left; reflexivity).
  split; [exact F|]. split; [exact H|].
  exact (proj1 (@running_mean_within_range T T' 0 1%Q 500%Q 500
                  (125250 # 500)%Q) w F H).
Defined.

(** ** Short and empty epochs, and the whole run *)

(** An epoch whose loader yields fewer than 500 mini-batches prints no
    statistics line at all; an epoch whose loader yields none prints its
    heading and calls nothing. *)
Theorem short_epochs_print_no_statistics :
  forall (T : Torch MLP) (T' : Torch CNN.ConvNet) (e : nat),
    (forall w,
        length (fst (DataLoader L1.trainloader (rng w))) < 500 ->
        loss_figures (trace (L1.epoch e w)) = []) /\
    (forall w,
        length (fst (DataLoader L2.trainloader (rng w))) < 500 ->
        loss_figures (trace (L2.epoch e w)) = []) /\
    (forall w,
        length (fst (DataLoader ElasticNet.trainloader (rng w))) < 500 ->
        loss_figures (trace (ElasticNet.epoch e w)) = []) /\
    (forall w,
        length (fst (DataLoader DropoutNb.trainloader (rng w))) < 500 ->
        loss_figures (trace (DropoutNb.epoch e w)) = []) /\
    (forall w,
        length (fst (DataLoader CNN.trainloader (rng w))) < 500 ->
        loss_figures (trace (CNN.epoch e w)) = []) /\
    (forall w,
        fst (DataLoader L1.trainloader (rng w)) = [] ->
        trace (L1.epoch e w) = [PrintLine (StartingEpoch (e + 1))]) /\
    (forall w,
        fst (DataLoader L2.trainloader (rng w)) = [] ->
        trace (L2.epoch e w) = [PrintLine (StartingEpoch (e + 1))]) /\
    (forall w,
        fst (DataLoader ElasticNet.trainloader (rng w)) = [] ->
        trace (ElasticNet.epoch e w) = [PrintLine (StartingEpoch (e + 1))]) /\
    (forall w,
        fst (DataLoader DropoutNb.trainloader (rng w)) = [] ->
        trace (DropoutNb.epoch e w) = [PrintLine (StartingEpoch (e + 1))]) /\
    (forall w,
        fst (DataLoader CNN.trainloader (rng w)) = [] ->
        trace (CNN.epoch e w) = [PrintLine (StartingEpoch (e + 1))]).
Proof.
  intros T T' e.
  assert (A : forall items, length items < 500 -> last_of_blocks items = []).
  { intros items H. unfold last_of_blocks.
    now rewrite (Nat.div_small _ _ H). }
  assert (B : forall items, length items < 500 -> mean_of_blocks items = []).
  { intros items H. unfold mean_of_blocks.
    now rewrite (Nat.div_small _ _ H). }
  repeat apply conj; intros w H.
  - rewrite L1_epoch_figures. apply A. now rewrite L1_epoch_items.
  - rewrite L2_epoch_figures. apply A. now rewrite L2_epoch_items.
  - rewrite ElasticNet_epoch_figures. apply A.
    now rewrite ElasticNet_epoch_items.
  - rewrite Dropout_epoch_figures. apply B. now rewrite Dropout_epoch_items.
  - rewrite CNN_epoch_figures. apply B. now rewrite CNN_epoch_items.
  - rewrite L1_epoch_trace, H. reflexivity.
  - rewrite L2_epoch_trace, H. reflexivity.
  - rewrite ElasticNet_epoch_trace, H. reflexivity.
  - rewrite Dropout_epoch_trace, H. reflexivity.
  - rewrite CNN_epoch_trace, H. reflexivity.
Qed.

Lemma short_epochs_print_no_statistics_witness :
  let T := Toy.library Toy.zero_mlp 499 in
  let T' := Toy.library Toy.zero_convnet 0 in
  (length (fst (@DataLoader _ T L1.trainloader (rng (Toy.world Toy.zero_mlp 499))))
   < 500 /\
   loss_figures (trace (@L1.epoch T 3 (Toy.world Toy.zero_mlp 499))) = []) /\
  (fst (@DataLoader _ T' CNN.trainloader (rng (Toy.world Toy.zero_convnet 0)))
   = [] /\
   trace (@CNN.epoch T' 3 (Toy.world Toy.zero_convnet 0))
   = [PrintLine (StartingEpoch (3 + 1))]).
Proof.
  intros T T'.
  assert (H1 : length (fst (@DataLoader _ T L1.trainloader
                              (rng (Toy.world Toy.zero_mlp 499)))) < 500)
    by (vm_compute; lia).
  assert (H2 : fst (@DataLoader _ T' CNN.trainloader
                      (rng (Toy.world Toy.zero_convnet 0))) = [])
    by reflexivity.
  pose proof (@short_epochs_print_no_statistics T T' 3) as S.
  split; split; [exact H1 | | exact H2 | ].
  - exact (proj1 S _ H1).
  - exact (proj2 (proj2 (proj2 (proj2 (proj2 (proj2 (proj2 (proj2 (proj2 S))))))))
             _ H2).
Defined.

Lemma outline_app (tr1 tr2 : list Event) :
  outline (tr1 ++ tr2) = outline tr1 ++ outline tr2.
Proof. apply map_app. Qed.

Section WholeRun.
Context {Model : Type} {T : Torch Model}.
Variable epoch : nat -> M unit.
Hypothesis epoch_outline :
  forall e w, exists n,
    outline (trace (epoch e w))
    = OEpoch (e + 1) :: flat_map iteration_outline (seq 0 n).

Lemma for_each_outline (epochs : list nat) (w : World) :
  exists ns,
    length ns = length epochs /\
    outline (trace (for_each epoch epochs w))
    = flat_map (fun en => OEpoch (fst en + 1)
                            :: flat_map iteration_outline (seq 0 (snd en)))
               (combine epochs ns).
Proof.
  revert w. induction epochs as [|e epochs IH]; intro w.
  - exists []. split; reflexivity.
  - destruct (epoch_outline e w) as [n Hn].
    destruct (IH (world (epoch e w))) as (ns & L & Hns).
    exists (n :: ns). split; [cbn [length]; congruence|].
    cbn [for_each]. rewrite trace_bind, outline_app, Hn, Hns. reflexivity.
Qed.

Lemma main_outline (first count : nat) (w : World) :
  exists ns,
    length ns = count /\
    outline (trace ((for_each epoch (seq first count) ;;
                     print TrainingFinished) w))
    = run_outline first ns.
Proof.
  destruct (for_each_outline (seq first count) w) as (ns & L & H).
  rewrite length_seq in L. exists ns. split; [exact L|].
  rewrite trace_bind, outline_app, H. unfold run_outline. now rewrite L.
Qed.
End WholeRun.

Section EpochOutlines.
Context {T : Torch MLP}.

Lemma L1_epoch_outline e w :
  exists n,
    outline (trace (L1.epoch e w))
    = OEpoch (e + 1) :: flat_map iteration_outline (seq 0 n).
Proof.
  eexists. rewrite L1_epoch_trace. cbn [outline map]. f_equal.
  apply (for_enumerate_outline _ L1_iteration_outline).
Qed.

Lemma L2_epoch_outline e w :
  exists n,
    outline (trace (L2.epoch e w))
    = OEpoch (e + 1) :: flat_map iteration_outline (seq 0 n).
Proof.
  eexists. rewrite L2_epoch_trace. cbn [outline map]. f_equal.
  apply (for_enumerate_outline _ L2_iteration_outline).
Qed.

Lemma ElasticNet_epoch_outline e w :
  exists n,
    outline (trace (ElasticNet.epoch e w))
    = OEpoch (e + 1) :: flat_map iteration_outline (seq 0 n).
Proof.
  eexists. rewrite ElasticNet_epoch_trace. cbn [outline map]. f_equal.
  apply (for_enumerate_outline _ ElasticNet_iteration_outline).
Qed.

Lemma Dropout_epoch_outline e w :
  exists n,
    outline (trace (DropoutNb.epoch e w))
    = OEpoch (e + 1) :: flat_map iteration_outline (seq 0 n).
Proof.
  eexists. rewrite Dropout_epoch_trace. cbn [outline map]. f_equal.
  apply (for_enumerate_outline _ Dropout_iteration_outline).
Qed.
End EpochOutlines.

Section EpochOutlinesCNN.
Context {T : Torch CNN.ConvNet}.

Lemma CNN_epoch_outline e w :
  exists n,
    outline (trace (CNN.epoch e w))
    = OEpoch (e + 1) :: flat_map iteration_outline (seq 0 n).
Proof.
  eexists. rewrite CNN_epoch_trace. cbn [outline map]. f_equal.
  apply (for_enumerate_outline _ CNN_iteration_outline).
Qed.
End EpochOutlinesCNN.

(** The whole run of every notebook: five epochs (three for the ConvNet),
    each announced by its heading, numbered from 1, before any of its
    mini-batches is trained on; within an epoch the five calls of each
    mini-batch and a statistics line after every 500th; the closing line
    last, after the last epoch, and nothing else. *)
Theorem whole_run_outline :
  forall (T : Torch MLP) (T' : Torch CNN.ConvNet),
    (exists ns, length ns = 5 /\ outline L1.main = run_outline 0 ns) /\
    (exists ns, length ns = 5 /\ outline L2.main = run_outline 0 ns) /\
    (exists ns, length ns = 5 /\ outline ElasticNet.main = run_outline 0 ns) /\
    (exists ns, length ns = 5 /\ outline DropoutNb.main = run_outline 0 ns) /\
    (exists ns, length ns = 3 /\ outline CNN.main = run_outline 0 ns).
Proof.
  intros T T'. repeat apply conj.
  - apply (main_outline L1.epoch L1_epoch_outline 0 5).
  - apply (main_outline L2.epoch L2_epoch_outline 0 5).
  - apply (main_outline ElasticNet.epoch ElasticNet_epoch_outline 0 5).
  - apply (main_outline DropoutNb.epoch Dropout_epoch_outline 0 5).
  - apply (main_outline CNN.epoch CNN_epoch_outline 0 3).
Qed.

(** ** Shapes through the other stacks *)

Lemma MLP_stack_shape (drop : bool) (s : list nat) :
  Shapes.forward_shape (if drop then DropoutNb.layers else L1.layers) s
  = match s with
    | n :: d :: rest =>
        if fold_right Nat.mul 1 (d :: rest) =? 784 then Some [n; 10] else None
    | _ => None
    end.
Proof.
  destruct s as [|n [|d rest]]; [destruct drop; reflexivity ..|].
  set (P := fold_right Nat.mul 1 (d :: rest)).
  destruct drop; unfold Shapes.forward_shape, DropoutNb.layers, L1.layers;
    cbn [Shapes.summary Shapes.layer_shape]; fold P; cbn [rev app];
    change (28 * 28 * 1) with 784;
    destruct (P =? 784); reflexivity.
Qed.

(** Which inputs the multilayer perceptrons take: a batch of any rank of at
    least two whose samples have 784 elements in all, giving 10 values per
    sample; anything else is a shape error.  The dropout layers change
    nothing to this. *)
Theorem MLP_forward_shapes :
  forall s : list nat,
    let expected :=
      match s with
      | n :: d :: rest =>
          if fold_right Nat.mul 1 (d :: rest) =? 784
          then Some [n; 10] else None
      | _ => None
      end in
    Shapes.forward_shape L1.layers s = expected /\
    Shapes.forward_shape L2.layers s = expected /\
    Shapes.forward_shape ElasticNet.layers s = expected /\
    Shapes.forward_shape DropoutNb.layers s = expected.
Proof.
  intros s expected. subst expected.
  pose proof (MLP_stack_shape false s) as A.
  pose proof (MLP_stack_shape true s) as B.
  cbv iota in A, B. repeat split; assumption.
Qed.

Lemma pool_out_2 (x : nat) :
  Shapes.pool_out x 2 2 = if 2 <=? x then Some ((x - 2) / 2 + 1) else None.
Proof. reflexivity. Qed.

Lemma conv_out_3_1 (x : nat) :
  Shapes.conv_out x 3 1 = if 1 <=? x then Some x else None.
Proof.
  unfold Shapes.conv_out. change (0 <? 3) with true. cbn [andb].
  replace (3 <=? x + 2 * 1) with (1 <=? x).
  2:{ destruct (Nat.leb_spec 1 x), (Nat.leb_spec 3 (x + 2 * 1)); lia. }
  destruct (Nat.leb_spec 1 x); [f_equal; lia | reflexivity].
Qed.

Lemma half_bounds (x : nat) : 2 * (x / 2) <= x /\ x < 2 * (x / 2) + 2.
Proof.
  pose proof (Nat.div_mod_eq x 2).
  pose proof (Nat.mod_upper_bound x 2). lia.
Qed.

(** Sizes after one halving pool, written without division. *)
Ltac halves :=
  repeat match goal with
         | |- context [?x / 2] =>
             let q := fresh "q" in
             pose proof (half_bounds x); set (q := x / 2) in *; clearbody q
         | _ : context [?x / 2] |- _ =>
             let q := fresh "q" in
             pose proof (half_bounds x); set (q := x / 2) in *; clearbody q
         end.

Ltac window_side :=
  match goal with
  | |- context [if ?a <=? ?x then _ else _] =>
      destruct (Nat.leb_spec a x);
      cbn [Shapes.summary Shapes.layer_shape Nat.eqb];
      [|split; [discriminate | halves; lia]]
  end.

Ltac window_step :=
  unfold Shapes.window at 1;
  rewrite ?conv_out_3, ?conv_out_3_1, ?pool_out_2;
  window_side; window_side.

(** Which batches [ConvNet.forward] takes, among those of four
    dimensions: one channel, and images of at least 5x5 pixels of which the
    two convolutions leave 576 = 24 * 24 (28x28 images, and 20x40 ones as
    well); the result then has 10 values per sample.  On every other batch
    of four dimensions it raises a shape error. *)
Theorem ConvNet_input_shapes :
  forall (T : Torch CNN.ConvNet) (S : ShapeChecked T)
         (x : Input) (w : World) (n c h wd : nat),
    input_shape x = [n; c; h; wd] ->
    let expected :=
      if (c =? 1) && (5 <=? h) && (5 <=? wd) && ((h - 4) * (wd - 4) =? 576)
      then Some [n; 10] else None in
    output_shape (value (result (CNN.forward x w))) = expected /\
    forall m : CNN.ConvNet,
      output_shape (graph (result (CNN.forward x w)) m) = expected.
Proof.
  intros T S x w n c h wd H expected. subst expected.
  destruct (call_shape CNN.layers x w) as [A B].
  unfold CNN.forward. rewrite <- ConvNet_stack_shape, <- H. split; assumption.
Qed.

Lemma ConvNet_input_shapes_witness :
  let T := Toy.shapes Toy.zero_convnet in
  let S := Toy.shapes_checked Toy.zero_convnet in
  let w := Toy.shapes_world Toy.zero_convnet in
  (@input_shape _ T S [2; 1; 20; 40] = [2; 1; 20; 40] /\
   @output_shape _ T S (value (result (@CNN.forward T [2; 1; 20; 40] w)))
   = Some [2; 10]) /\
  (@input_shape _ T S [2; 1; 32; 32] = [2; 1; 32; 32] /\
   @output_shape _ T S (value (result (@CNN.forward T [2; 1; 32; 32] w)))
   = None).
Proof.
  intros T S w. split; (split; [reflexivity|]).
  - exact (proj1 (@ConvNet_input_shapes T S [2; 1; 20; 40] w 2 1 20 40 eq_refl)).
  - exact (proj1 (@ConvNet_input_shapes T S [2; 1; 32; 32] w 2 1 32 32 eq_refl)).
Defined.

(** One side of a window, whatever comes out of it. *)
Ltac window_any :=
  unfold Shapes.window at 1;
  match goal with
  | |- context [Shapes.conv_out ?a ?k ?p] =>
      destruct (Shapes.conv_out a k p); [|discriminate]
  | |- context [Shapes.pool_out ?a ?k ?p] =>
      destruct (Shapes.pool_out a k p); [|discriminate]
  end;
  match goal with
  | |- context [Shapes.conv_out ?a ?k ?p] =>
      destruct (Shapes.conv_out a k p); [|discriminate]
  | |- context [Shapes.pool_out ?a ?k ?p] =>
      destruct (Shapes.pool_out a k p); [|discriminate]
  end;
  cbn [Shapes.summary Shapes.layer_shape Nat.eqb].

Lemma ConvNet2_layers_raises (ci k : nat) (p : Q) :
  CNN.ConvNet2_layers ci k p = None <-> ~ (0 <= p /\ p <= 1)%Q.
Proof.
  unfold CNN.ConvNet2_layers.
  destruct (Qle_bool 0 p) eqn:A, (Qle_bool p 1) eqn:B; cbn [andb];
    rewrite ?Qle_bool_iff in A, B.
  - split; [discriminate | intro H; elim H; split; assumption].
  - split; [intros _ [_ H]|reflexivity].
    apply Qle_bool_iff in H. congruence.
  - split; [intros _ [H _]|reflexivity].
    apply Qle_bool_iff in H. congruence.
  - split; [intros _ [H _]|reflexivity].
    apply Qle_bool_iff in H. congruence.
Qed.

(** Which batches a [ConvNet2] stack takes: the channels it was built for,
    and images between 22 and 37 pixels high and wide, the sizes that the
    four pooling layers bring down to a single pixel; any other batch of
    four dimensions is a shape error. *)
Lemma ConvNet2_stack_shape (ci k : nat) (p : Q) (self_layers : list Layer)
      (n c h w : nat) :
  CNN.ConvNet2_layers ci k p = Some self_layers ->
  Shapes.forward_shape self_layers [n; c; h; w]
  = if (c =? ci) && (22 <=? h) && (h <=? 37) && (22 <=? w) && (w <=? 37)
    then Some [n; k] else None.
Proof.
  unfold CNN.ConvNet2_layers.
  destruct (Qle_bool 0 p && Qle_bool p 1); [|discriminate].
  intro E. injection E as <-.
  apply shape_cases.
  - rewrite !andb_true_iff, Nat.eqb_eq, !Nat.leb_le.
    unfold Shapes.forward_shape.
    cbn [Shapes.summary Shapes.layer_shape].
    destruct (Nat.eqb_spec c ci) as [->|Hc]; [|split; [discriminate | lia]].
    window_step. window_step. window_step. window_step.
    window_step. window_step. window_step. window_step.
    cbn [rev app fold_right].
    match goal with
    | |- context [if 64 * (?a * (?b * 1)) =? 64 then _ else _] =>
        remember a as fa eqn:Ea; remember b as fb eqn:Eb
    end.
    destruct (Nat.eqb_spec (64 * (fa * (fb * 1))) 64) as [E|E];
      cbn [Shapes.summary Shapes.layer_shape Nat.eqb rev app last].
    + split; [intros _|reflexivity].
      assert (P : fa * fb = 1) by lia.
      apply Nat.eq_mul_1 in P. destruct P as [Pa Pb].
      rewrite Ea in Pa. rewrite Eb in Pb. clear Ea Eb E. halves. lia.
    + split; [discriminate|]. intros R. exfalso. apply E.
      assert (Pa : fa = 1) by (rewrite Ea; clear Ea Eb E; halves; lia).
      assert (Pb : fb = 1) by (rewrite Eb; clear Ea Eb E; halves; lia).
      rewrite Pa, Pb. reflexivity.
  - intro s'. unfold Shapes.forward_shape.
    cbn [Shapes.summary Shapes.layer_shape].
    destruct (c =? ci); [|discriminate].
    do 8 window_any.
    cbn [rev app fold_right].
    destruct (_ =? 64); [|discriminate].
    cbn [Shapes.summary Shapes.layer_shape Nat.eqb rev app last].
    intro E. injection E as <-. reflexivity.
Qed.

(** [ConvNet2], built for at least one input channel and one class:
    construction fails exactly for a dropout probability outside [0, 1];
    once built, [forward] takes, among the batches of four dimensions,
    those with the channels it was built for and images between 22 and 37
    pixels high and wide, and returns [num_of_classes] values per sample;
    on every other batch of four dimensions it raises a shape error. *)
Theorem ConvNet2_input_shapes :
  forall (T : Torch CNN.ConvNet2) (S : ShapeChecked T)
         (num_of_input_channels num_of_classes : nat) (dropout_prob : Q),
    1 <= num_of_input_channels -> 1 <= num_of_classes ->
    (CNN.ConvNet2_layers num_of_input_channels num_of_classes dropout_prob
     = None
     <-> ~ (0 <= dropout_prob /\ dropout_prob <= 1)%Q) /\
    forall self_layers : list Layer,
      CNN.ConvNet2_layers num_of_input_channels num_of_classes dropout_prob
      = Some self_layers ->
      forall (x : Input) (w : World) (n c h wd : nat),
        input_shape x = [n; c; h; wd] ->
        let expected :=
          if (c =? num_of_input_channels)
             && (22 <=? h) && (h <=? 37) && (22 <=? wd) && (wd <=? 37)
          then Some [n; num_of_classes] else None in
        output_shape (value (result (CNN.ConvNet2_forward self_layers x w)))
        = expected /\
        forall m : CNN.ConvNet2,
          output_shape (graph (result (CNN.ConvNet2_forward self_layers x w)) m)
          = expected.
Proof.
  intros T S ci k p _ _. split; [apply ConvNet2_layers_raises|].
  intros self_layers E x w n c h wd H expected. subst expected.
  destruct (call_shape self_layers x w) as [A B].
  unfold CNN.ConvNet2_forward.
  rewrite <- (ConvNet2_stack_shape _ _ _ n c h wd E), <- H.
  split; assumption.
Qed.

Lemma ConvNet2_input_shapes_witness :
  let T := Toy.shapes Toy.zero_convnet2 in
  let S := Toy.shapes_checked Toy.zero_convnet2 in
  let w := Toy.shapes_world Toy.zero_convnet2 in
  exists self_layers,
    CNN.ConvNet2_layers 1 10 (2 # 10) = Some self_layers /\
    @input_shape _ T S [2; 1; 28; 28] = [2; 1; 28; 28] /\
    @output_shape _ T S
      (value (result (@CNN.ConvNet2_forward T self_layers [2; 1; 28; 28] w)))
    = Some [2; 10].
Proof.
  intros T S w. eexists. split; [reflexivity|]. split; [reflexivity|].
  assert (C : 1 <= 1) by lia. assert (K : 1 <= 10) by lia.
  exact (proj1 (proj2 (@ConvNet2_input_shapes T S 1 10 (2 # 10) C K)
                      _ eq_refl [2; 1; 28; 28] w 2 1 28 28 eq_refl)).
Defined.

(** ** The vector the penalties are computed on *)

(** The loop that collects the flattened parameters and the concatenation
    that follows lose and repeat nothing: the vector handed to
    [compute_l1_loss] and [compute_l2_loss] is one-dimensional and holds
    the elements of the six parameter tensors, each once, in registration
    order, whatever the shapes of the tensors. *)
Theorem penalty_vector_holds_every_parameter :
  (forall ps : list (Var MLP Tensor),
      flattened ps = map (lift torch.view_flat) ps) /\
  forall m : MLP,
    value (lift_list torch.cat (flattened (parameters m))) = flat_parameters m /\
    elems (flat_parameters m) = concat (map elems (tensors m)) /\
    shape (flat_parameters m)
    = [list_sum (map (fun t => length (elems t)) (tensors m))] /\
    forall m' : MLP,
      graph (lift_list torch.cat (flattened (parameters m))) m'
      = flat_parameters m'.
Proof.
  split; [exact flattened_map|]. intro m. repeat split.
  unfold flat_parameters. cbn [shape torch.cat]. f_equal.
  rewrite length_concat, !map_map. reflexivity.
Qed.
